(** * Langium grammar scoping and reference lookup

    A shallow embedding of
    - [packages/langium/src/grammar/references/grammar-scope.ts]
      ([LangiumGrammarScopeProvider], [LangiumGrammarScopeComputation]) and
    - [packages/langium/src/references/references.ts] ([DefaultReferences]),
    together with the small part of the syntax tree, scope and index
    contracts these two files rely on. *)

From Stdlib Require Import String List Bool ZArith Lia.
Import ListNotations.
Open Scope string_scope.
Open Scope list_scope.
Set Warnings "-register-all".

(** ** URIs *)

Definition URI := string.

(** [equalURI] of [utils/uri-util]: two URIs are equal when their string
    forms are. *)
Definition equalURI (a b : URI) : bool := String.eqb a b.

(** ** Syntax tree

    AST nodes are linked upwards through [$container] ([node_container]); the
    root of a document has none.  [uid] stands for the identity of the
    JavaScript object.  Child nodes held in a property of their parent ([inferredType], [imports]) are
    stored as their own data and rebuilt with the parent as container by the
    accessor of that property. *)

Record InferredTypeDecl := { inferred_uid : nat; inferred_name : string }.

Record GrammarImportDecl := { import_uid : nat; import_path : string }.

Inductive NodeData : Type :=
| Grammar (imports : list GrammarImportDecl)
| GrammarImport (path : string)
| ParserRule (name : string) (returnType : option string)
    (dataType : option string) (inferredType : option InferredTypeDecl)
| Action (inferredType : option InferredTypeDecl)
| InferredType (name : string)
| ReturnType (name : string)
| OtherNode (type : string).

Inductive AstNode : Type :=
| mkAstNode (uid : nat) (data : NodeData) (container : option AstNode).

Definition uid (n : AstNode) : nat := let 'mkAstNode u _ _ := n in u.
Definition data (n : AstNode) : NodeData := let 'mkAstNode _ d _ := n in d.
Definition node_container (n : AstNode) : option AstNode :=
  let 'mkAstNode _ _ c := n in c.

Definition InferredTypeDecl_eq_dec (a b : InferredTypeDecl) : {a = b} + {a <> b}.
Proof. decide equality; [apply string_dec | apply Nat.eq_dec]. Defined.

Definition GrammarImportDecl_eq_dec (a b : GrammarImportDecl) : {a = b} + {a <> b}.
Proof. decide equality; [apply string_dec | apply Nat.eq_dec]. Defined.

Definition option_eq_dec {A} (dec : forall a b : A, {a = b} + {a <> b})
  (x y : option A) : {x = y} + {x <> y}.
Proof. decide equality. Defined.

Definition NodeData_eq_dec (a b : NodeData) : {a = b} + {a <> b}.
Proof.
  decide equality;
    solve [ apply string_dec
          | apply (option_eq_dec string_dec)
          | apply (option_eq_dec InferredTypeDecl_eq_dec)
          | apply (list_eq_dec GrammarImportDecl_eq_dec) ].
Defined.

Fixpoint AstNode_eq_dec (a b : AstNode) : {a = b} + {a <> b}.
Proof.
  destruct a as [u d c], b as [u' d' c'].
  destruct (Nat.eq_dec u u') as [-> | Hu]; [| right; congruence].
  destruct (NodeData_eq_dec d d') as [-> | Hd]; [| right; congruence].
  destruct c as [p |], c' as [p' |]; try (right; congruence).
  - destruct (AstNode_eq_dec p p') as [-> | Hp]; [left; reflexivity | right; congruence].
  - left; reflexivity.
Defined.

(** [a === b] on AST nodes. *)
Definition sameNode (a b : AstNode) : bool :=
  if AstNode_eq_dec a b then true else false.

(** Type guards of [grammar/generated/ast]. *)
Definition isGrammar (n : AstNode) : bool :=
  match data n with Grammar _ => true | _ => false end.
Definition isParserRule (n : AstNode) : bool :=
  match data n with ParserRule _ _ _ _ => true | _ => false end.
Definition isAction (n : AstNode) : bool :=
  match data n with Action _ => true | _ => false end.
Definition isReturnType (n : AstNode) : bool :=
  match data n with ReturnType _ => true | _ => false end.

(** Property accessors. *)
Definition name (n : AstNode) : string :=
  match data n with
  | ParserRule nm _ _ _ => nm
  | InferredType nm => nm
  | ReturnType nm => nm
  | _ => ""
  end.

Definition returnType (n : AstNode) : option string :=
  match data n with ParserRule _ r _ _ => r | _ => None end.

Definition dataType (n : AstNode) : option string :=
  match data n with ParserRule _ _ d _ => d | _ => None end.

Definition inferredType (n : AstNode) : option AstNode :=
  match data n with
  | ParserRule _ _ _ (Some t) | Action (Some t) =>
      Some (mkAstNode (inferred_uid t) (InferredType (inferred_name t)) (Some n))
  | _ => None
  end.

Definition imports (n : AstNode) : list AstNode :=
  match data n with
  | Grammar l =>
      map (fun i => mkAstNode (import_uid i) (GrammarImport (import_path i)) (Some n)) l
  | _ => []
  end.

(** [findRootNode] of [utils/ast-util]: follow [$container] to the top. *)
Fixpoint findRootNode (node : AstNode) : AstNode :=
  match node with
  | mkAstNode _ _ (Some c) => findRootNode c
  | mkAstNode _ _ None => node
  end.

(** [getContainerOfType] of [utils/ast-util]: the nearest node on the
    container chain, the node itself included, that satisfies the guard. *)
Fixpoint getContainerOfType (node : AstNode) (typePredicate : AstNode -> bool)
  : option AstNode :=
  if typePredicate node then Some node
  else match node with
       | mkAstNode _ _ (Some c) => getContainerOfType c typePredicate
       | mkAstNode _ _ None => None
       end.

(** CST nodes: a text range, the AST node they belong to, and [cst_uid] for
    the identity of the object. *)
Record CstNode := {
  cst_uid : nat;
  offset : Z;
  cst_end : Z;
  element : option AstNode
}.

Definition sameCstNode (a b : CstNode) : bool := Nat.eqb (cst_uid a) (cst_uid b).

Record DocumentSegment := {
  seg_offset : Z;
  seg_end : Z;
  seg_length : Z
}.

(** [toDocumentSegment] of [utils/cst-util]. *)
Definition toDocumentSegment (node : option CstNode) : option DocumentSegment :=
  match node with
  | None => None
  | Some n => Some {| seg_offset := offset n; seg_end := cst_end n;
                      seg_length := cst_end n - offset n |}
  end.

(** A cross-reference value held in a property of an AST node: the resolved
    target [ref] (absent while unresolved) and the CST node [$refNode] of the
    reference text. *)
Record Reference := {
  ref : option AstNode;
  refNode : option CstNode
}.

(** What [node[feature]] can hold on a [GenericAstNode]. *)
Inductive PropertyValue : Type :=
| VReference (r : Reference)
| VArray (items : list PropertyValue)
| VOther.

Definition isReference (v : PropertyValue) : bool :=
  match v with VReference _ => true | _ => false end.

(** The grammar's [Assignment] element, of which only [feature] is read. *)
Record Assignment := { feature : string }.

(** ** Descriptions, scopes and documents *)

Record AstNodeDescription := {
  desc_node : option AstNode;
  desc_name : string;
  nameSegment : option DocumentSegment;
  selectionSegment : option DocumentSegment;
  type : string;
  documentUri : URI;
  path : string
}.

Record ReferenceDescription := {
  sourceUri : URI;
  sourcePath : string;
  targetUri : URI;
  targetPath : string;
  segment : option DocumentSegment;
  local : bool
}.

(** Type tags of [grammar/generated/ast]; the spec's [UnionType] is the tag
    the sources import as [Type]. *)
Definition AbstractType : string := "AbstractType".
Definition Interface : string := "Interface".
Definition Type_ : string := "Type".

(** [MultiMap<AstNode, AstNodeDescription>]: entries in insertion order;
    [get] yields the values of a key (none for an unknown key), [add]
    appends one. *)
Module MultiMap.

Definition t := list (AstNode * AstNodeDescription).

Definition get (m : t) (key : AstNode) : list AstNodeDescription :=
  map snd (filter (fun e => sameNode (fst e) key) m).

Definition add (key : AstNode) (value : AstNodeDescription) (m : t) : t :=
  m ++ [(key, value)].

End MultiMap.

Definition PrecomputedScopes := MultiMap.t.

Record LangiumDocument := {
  uri : URI;
  precomputedScopes : option PrecomputedScopes
}.

Record ReferenceInfo := {
  container : AstNode;
  property : string
}.

(** Modelled from the spec: the [Scope] contract of
    [references/scope-provider], which is not among the sources: an ordered
    lookup object over layers of descriptions; lookup by name returns the
    first match scanning layers nearest-first, [getAllElements] all of
    them. *)
Inductive Scope : Type :=
| EMPTY_SCOPE
| StreamScope (elements : list AstNodeDescription) (outerScope : option Scope).


Fixpoint getAllElements (s : Scope) : list AstNodeDescription :=
  match s with
  | EMPTY_SCOPE => []
  | StreamScope elements outerScope =>
      elements ++ match outerScope with
                  | Some o => getAllElements o
                  | None => []
                  end
  end.

(** Modelled from the spec: [createScope] of the default scope provider,
    which composes a layer over an outer scope. *)
Definition createScope (elements : list AstNodeDescription) (outerScope : Scope)
  : Scope :=
  StreamScope elements (Some outerScope).

(** [stream(...).nonNullable()]. *)
Fixpoint nonNullable {A} (l : list (option A)) : list A :=
  match l with
  | [] => []
  | Some a :: r => a :: nonNullable r
  | None :: r => nonNullable r
  end.

(** ** Workspace index

    Modelled from the spec: the index manager, which is not among the
    sources.  It holds, per document URI, the export table and the outgoing
    reference descriptions of that document. *)
Record IndexEntry := {
  entry_uri : URI;
  entry_exports : list AstNodeDescription;
  entry_references : list ReferenceDescription
}.

Definition IndexManager := list IndexEntry.

(** ** Services and imported helpers

    The services the two classes take from [LangiumServices], and the
    helper functions and object-graph accessors they import from modules
    that are not among the sources; these are parameters of the
    development. *)
Record LangiumServices := {
  (* shared.AstReflection *)
  getReferenceType : ReferenceInfo -> string;
  isSubtype : string -> string -> bool;
  (* references.NameProvider *)
  getNameNode : AstNode -> option CstNode;
  (* workspace.AstNodeLocator *)
  getAstNodePath : AstNode -> string;
  (* shared.workspace.IndexManager *)
  indexManager : IndexManager
}.

Record Helpers := {
  (* node.$document, which only the root node of a document carries *)
  node_document : AstNode -> option LangiumDocument;
  (* utils/ast-util *)
  streamAllContents : AstNode -> list AstNode;
  (* node.$cstNode and node[feature] *)
  cstNode : AstNode -> option CstNode;
  getProperty : AstNode -> string -> PropertyValue;
  (* grammar/internal-grammar-util *)
  resolveImportUri : AstNode -> option URI;
  getActionType : AstNode -> option string;
  (* utils/grammar-util and utils/cst-util *)
  findAssignment : CstNode -> option Assignment;
  isCstChildNode : CstNode -> CstNode -> bool
}.

(** How a call ends: with the value it returns, or with the error it
    raises. *)
Inductive Outcome (A : Type) : Type :=
| Returns (value : A)
| Throws (message : string).
Arguments Returns {A} value.
Arguments Throws {A} message.

(** [getDocument] of [utils/ast-util]: the document that the root node of
    the node carries; for a node whose root carries none it raises the
    error 'AST node has no document.'. *)
Module AstUtil.

Definition getDocument (helpers : Helpers) (node : AstNode)
  : Outcome LangiumDocument :=
  let rootNode := findRootNode node in
  match node_document helpers rootNode with
  | Some result => Returns result
  | None => Throws "AST node has no document."
  end.

End AstUtil.

(** What [getDocument] returns where it returns.  The operations below
    are first written for nodes that have a document and use this
    function; for a node without one, where the call raises, it yields the
    placeholder [noDocument], and the operations whose behaviour on such
    nodes is stated are written again with the error, in [Raising]. *)
Definition noDocument : LangiumDocument :=
  {| uri := ""; precomputedScopes := None |}.

Definition getDocument (helpers : Helpers) (node : AstNode) : LangiumDocument :=
  match AstUtil.getDocument helpers node with
  | Returns result => result
  | Throws _ => noDocument
  end.
Arguments getDocument : simpl never.

(** Modelled from the spec: [allElements(typeTag)], all exported
    descriptions of the workspace that fall under the type tag. *)
Definition allElements (services : LangiumServices) (nodeType : string)
  : list AstNodeDescription :=
  filter (fun e => isSubtype services (type e) nodeType)
         (flat_map entry_exports (indexManager services)).

(** Modelled from the spec: [findAllReferences(target, path)], all outgoing
    references of the workspace that point at the target's identity: its
    document URI and structural path. *)
Definition findAllReferences (services : LangiumServices) (helpers : Helpers)
  (targetNode : AstNode) (astNodePath : string) : list ReferenceDescription :=
  let targetDocUri := uri (getDocument helpers targetNode) in
  filter (fun refDescr => equalURI (targetUri refDescr) targetDocUri
                          && String.eqb (targetPath refDescr) astNodePath)
         (flat_map entry_references (indexManager services)).

Definition isSome {A} (o : option A) : bool :=
  match o with Some _ => true | None => false end.

(** Truthiness of a JavaScript string: every string but the empty one. *)
Definition truthy (s : string) : bool := negb (String.eqb s "").

(** ** The default scope provider

    Modelled from the spec: [DefaultScopeProvider] of
    [references/scope-provider], which is not among the sources.  Its
    [getScope] is the default resolution: the precomputed-scope layers of the
    reference's container and of each enclosing container, nearest first,
    over the global layer.  The global layer is the overridable method
    [getGlobalScope], which [LangiumGrammarScopeProvider] re-declares with
    [protected override]; [getScope] therefore takes it as an argument, and
    the base class's own version draws it from the whole index. *)
Module DefaultScopeProvider.

Section WithServices.
Variable services : LangiumServices.
Variable helpers : Helpers.

Fixpoint localScopes (precomputed : PrecomputedScopes) (referenceType : string)
  (currentNode : AstNode) : list (list AstNodeDescription) :=
  let allDescriptions := MultiMap.get precomputed currentNode in
  let here :=
    if (0 <? length allDescriptions)%nat
    then [filter (fun desc => isSubtype services (type desc) referenceType)
                 allDescriptions]
    else [] in
  match currentNode with
  | mkAstNode _ _ (Some c) => here ++ localScopes precomputed referenceType c
  | mkAstNode _ _ None => here
  end.

Definition getScope (getGlobalScope : string -> ReferenceInfo -> Scope)
  (context : ReferenceInfo) : Scope :=
  let referenceType := getReferenceType services context in
  let scopes :=
    match precomputedScopes (getDocument helpers (container context)) with
    | Some precomputed => localScopes precomputed referenceType (container context)
    | None => []
    end in
  fold_right createScope (getGlobalScope referenceType context) scopes.

Definition getGlobalScope (referenceType : string) (_context : ReferenceInfo)
  : Scope :=
  StreamScope (allElements services referenceType) None.

End WithServices.

End DefaultScopeProvider.

(** ** [LangiumGrammarScopeProvider] (grammar-scope.ts) *)
Module LangiumGrammarScopeProvider.

Section WithServices.
Variable services : LangiumServices.
Variable helpers : Helpers.

Definition isInterfaceOrType (des : AstNodeDescription) : bool :=
  String.eqb (type des) Interface || String.eqb (type des) Type_.

Definition getGlobalScope (referenceType : string) (context : ReferenceInfo)
  : Scope :=
  match getContainerOfType (container context) isGrammar with
  | None => EMPTY_SCOPE
  | Some grammar =>
      let importedUris :=
        nonNullable (map (resolveImportUri helpers) (imports grammar)) in
      let importedElements :=
        filter (fun des =>
                  existsb (fun importedUri => equalURI (documentUri des) importedUri)
                          importedUris)
               (allElements services referenceType) in
      let importedElements :=
        if String.eqb referenceType AbstractType
        then filter isInterfaceOrType importedElements
        else importedElements in
      StreamScope importedElements None
  end.

Definition getTypeScope (referenceType : string) (context : ReferenceInfo)
  : Scope :=
  let precomputed := precomputedScopes (getDocument helpers (container context)) in
  let rootNode := findRootNode (container context) in
  let localScope :=
    match precomputed with
    | Some precomputed =>
        let allDescriptions := MultiMap.get precomputed rootNode in
        if (0 <? length allDescriptions)%nat
        then Some (filter isInterfaceOrType allDescriptions)
        else None
    | None => None
    end in
  let globalScope := getGlobalScope referenceType context in
  match localScope with
  | Some localScope => createScope localScope globalScope
  | None => globalScope
  end.

Definition getScope (context : ReferenceInfo) : Scope :=
  let referenceType := getReferenceType services context in
  if String.eqb referenceType AbstractType
  then getTypeScope referenceType context
  else DefaultScopeProvider.getScope services helpers getGlobalScope context.

End WithServices.

End LangiumGrammarScopeProvider.

(** ** [LangiumGrammarScopeProvider] on nodes with or without a document

    [getTypeScope] (line 39) and the [getScope] of the base class begin by
    asking for the document of the reference's container; here the two are
    written with the error that [getDocument] raises.  [getGlobalScope]
    makes no such call. *)
Module Raising.

Section WithServices.
Variable services : LangiumServices.
Variable helpers : Helpers.

Definition getTypeScope (referenceType : string) (context : ReferenceInfo)
  : Outcome Scope :=
  match AstUtil.getDocument helpers (container context) with
  | Throws message => Throws message
  | Returns document =>
      let precomputed := precomputedScopes document in
      let rootNode := findRootNode (container context) in
      let localScope :=
        match precomputed with
        | Some precomputed =>
            let allDescriptions := MultiMap.get precomputed rootNode in
            if (0 <? length allDescriptions)%nat
            then Some (filter LangiumGrammarScopeProvider.isInterfaceOrType
                              allDescriptions)
            else None
        | None => None
        end in
      let globalScope :=
        LangiumGrammarScopeProvider.getGlobalScope services helpers
          referenceType context in
      Returns match localScope with
              | Some localScope => createScope localScope globalScope
              | None => globalScope
              end
  end.

(** Modelled from the spec: the [getScope] of [DefaultScopeProvider], as in
    [DefaultScopeProvider.getScope]. *)
Definition defaultGetScope (getGlobalScope : string -> ReferenceInfo -> Scope)
  (context : ReferenceInfo) : Outcome Scope :=
  let referenceType := getReferenceType services context in
  match AstUtil.getDocument helpers (container context) with
  | Throws message => Throws message
  | Returns document =>
      let scopes :=
        match precomputedScopes document with
        | Some precomputed =>
            DefaultScopeProvider.localScopes services precomputed referenceType
              (container context)
        | None => []
        end in
      Returns (fold_right createScope (getGlobalScope referenceType context) scopes)
  end.

Definition getScope (context : ReferenceInfo) : Outcome Scope :=
  let referenceType := getReferenceType services context in
  if String.eqb referenceType AbstractType
  then getTypeScope referenceType context
  else defaultGetScope
         (LangiumGrammarScopeProvider.getGlobalScope services helpers) context.

End WithServices.

End Raising.

(** ** [LangiumGrammarScopeComputation] (grammar-scope.ts)

    [exports] and [scopes] are mutated in place by the source; here each
    method returns the updated value.  The two methods of the base class
    [DefaultScopeComputation] that the overrides call through [super] are
    not among the sources and are parameters. *)
Record DefaultScopeComputation := {
  super_exportNode :
    AstNode -> list AstNodeDescription -> LangiumDocument -> list AstNodeDescription;
  super_processNode :
    AstNode -> LangiumDocument -> PrecomputedScopes -> PrecomputedScopes
}.

Module LangiumGrammarScopeComputation.

Section WithServices.
Variable services : LangiumServices.
Variable helpers : Helpers.
Variable base : DefaultScopeComputation.

Definition createInterfaceDescription (node : AstNode) (name : string)
  (document : LangiumDocument) : AstNodeDescription :=
  let nameNode :=
    match getNameNode services node with
    | Some n => Some n
    | None => cstNode helpers node
    end in
  {| desc_node := Some node;
     desc_name := name;
     nameSegment := toDocumentSegment nameNode;
     selectionSegment := toDocumentSegment (cstNode helpers node);
     type := "Interface";
     documentUri := uri document;
     path := getAstNodePath services node |}.

(** [node.inferredType ?? node] *)
Definition typeNodeOf (node : AstNode) : AstNode :=
  match inferredType node with
  | Some t => t
  | None => node
  end.

Definition exportAction (document : LangiumDocument)
  (exports : list AstNodeDescription) (childNode : AstNode)
  : list AstNodeDescription :=
  if isAction childNode && isSome (inferredType childNode) then
    match getActionType helpers childNode with
    | Some typeName =>
        if truthy typeName
        then exports ++ [createInterfaceDescription childNode typeName document]
        else exports
    | None => exports
    end
  else exports.

Definition exportNode (node : AstNode) (exports : list AstNodeDescription)
  (document : LangiumDocument) : list AstNodeDescription :=
  let exports := super_exportNode base node exports document in
  if isParserRule node then
    let exports :=
      if negb (isSome (returnType node)) && negb (isSome (dataType node)) then
        let typeNode := typeNodeOf node in
        exports ++ [createInterfaceDescription typeNode (name typeNode) document]
      else exports in
    fold_left (exportAction document) (streamAllContents helpers node) exports
  else exports.

Definition processTypeNode (node : AstNode) (document : LangiumDocument)
  (scopes : PrecomputedScopes) : PrecomputedScopes :=
  match node_container node with
  | Some container =>
      if isParserRule node && negb (isSome (returnType node))
         && negb (isSome (dataType node)) then
        let typeNode := typeNodeOf node in
        MultiMap.add container
          (createInterfaceDescription typeNode (name typeNode) document) scopes
      else scopes
  | None => scopes
  end.

Definition processActionNode (node : AstNode) (document : LangiumDocument)
  (scopes : PrecomputedScopes) : PrecomputedScopes :=
  let container := findRootNode node in
  if isAction node && isSome (inferredType node) then
    match getActionType helpers node with
    | Some typeName =>
        if truthy typeName
        then MultiMap.add container
               (createInterfaceDescription node typeName document) scopes
        else scopes
    | None => scopes
    end
  else scopes.

Definition processNode (node : AstNode) (document : LangiumDocument)
  (scopes : PrecomputedScopes) : PrecomputedScopes :=
  if isReturnType node then scopes
  else
    let scopes := processTypeNode node document scopes in
    let scopes := processActionNode node document scopes in
    super_processNode base node document scopes.

End WithServices.

End LangiumGrammarScopeComputation.

(** ** [DefaultReferences] (references.ts) *)

(** The options of [findReferences]; an option left out counts as [false],
    and [documentUri] is optional. *)
Record FindReferencesOptions := {
  onlyLocal : bool;
  opt_documentUri : option URI;
  includeDeclaration : bool
}.

(** How a block of statements ends: with a [return], or by running on. *)
Inductive Completion (A : Type) : Type :=
| Return (value : A)
| Continue.
Arguments Return {A} value.
Arguments Continue {A}.

Module DefaultReferences.

Section WithServices.
Variable services : LangiumServices.
Variable helpers : Helpers.

(** The condition of the loop body over an array of references. *)
Definition refCovers (sourceCstNode : CstNode) (r : PropertyValue)
  : option Reference :=
  match r with
  | VReference rf =>
      match refNode rf with
      | Some rn =>
          if (offset rn <=? offset sourceCstNode)%Z
             && (cst_end rn >=? cst_end sourceCstNode)%Z
          then Some rf else None
      | None => None
      end
  | _ => None
  end.

(** [for (const ref of reference) { if (...) return ref.ref; }] *)
Fixpoint findInArray (sourceCstNode : CstNode) (reference : list PropertyValue)
  : Completion (option AstNode) :=
  match reference with
  | [] => Continue
  | r :: rest =>
      match refCovers sourceCstNode r with
      | Some rf => Return (ref rf)
      | None => findInArray sourceCstNode rest
      end
  end.

(** The block guarded by [assignment && nodeElem]. *)
Definition declarationOfReference (sourceCstNode : CstNode)
  : Completion (option AstNode) :=
  match findAssignment helpers sourceCstNode, element sourceCstNode with
  | Some assignment, Some nodeElem =>
      match getProperty helpers nodeElem (feature assignment) with
      | VReference reference => Return (ref reference)
      | VArray reference => findInArray sourceCstNode reference
      | VOther => Continue
      end
  | _, _ => Continue
  end.

(** The block guarded by the second [nodeElem]. *)
Definition declarationOfName (sourceCstNode : CstNode)
  : Completion (option AstNode) :=
  match element sourceCstNode with
  | Some nodeElem =>
      match getNameNode services nodeElem with
      | Some nameNode =>
          if sameCstNode nameNode sourceCstNode
             || isCstChildNode helpers sourceCstNode nameNode
          then Return (Some nodeElem) else Continue
      | None => Continue
      end
  | None => Continue
  end.

Definition findDeclaration (sourceCstNode : option CstNode) : option AstNode :=
  match sourceCstNode with
  | Some sourceCstNode =>
      match declarationOfReference sourceCstNode with
      | Return result => result
      | Continue =>
          match declarationOfName sourceCstNode with
          | Return result => result
          | Continue => None
          end
      end
  | None => None
  end.

Definition findDeclarationNode (sourceCstNode : option CstNode) : option CstNode :=
  match findDeclaration sourceCstNode with
  | Some astNode =>
      match cstNode helpers astNode with
      | Some c =>
          match getNameNode services astNode with
          | Some targetNode => Some targetNode
          | None => Some c
          end
      | None => None
      end
  | None => None
  end.

Definition getReferenceToSelf (targetNode : AstNode) : option ReferenceDescription :=
  match getNameNode services targetNode with
  | Some nameNode =>
      let doc := getDocument helpers targetNode in
      let path := getAstNodePath services targetNode in
      Some {| sourceUri := uri doc;
              sourcePath := path;
              targetUri := uri doc;
              targetPath := path;
              segment := toDocumentSegment (Some nameNode);
              local := true |}
  | None => None
  end.

Definition findReferences (targetNode : AstNode) (options : FindReferencesOptions)
  : list ReferenceDescription :=
  let refs : list ReferenceDescription := [] in
  let refs :=
    if includeDeclaration options then
      match getReferenceToSelf targetNode with
      | Some ref => refs ++ [ref]
      | None => refs
      end
    else refs in
  let indexReferences :=
    findAllReferences services helpers targetNode
      (getAstNodePath services targetNode) in
  let indexReferences :=
    match opt_documentUri options with
    | Some documentUri =>
        filter (fun ref => equalURI (sourceUri ref) documentUri) indexReferences
    | None => indexReferences
    end in
  refs ++ indexReferences.

End WithServices.

End DefaultReferences.

(** ** Notions used in the statements *)

(** The documents a grammar imports, as [getGlobalScope] computes them. *)
Definition importedBy (helpers : Helpers) (context : ReferenceInfo) (u : URI) : Prop :=
  exists grammar imp,
    getContainerOfType (container context) isGrammar = Some grammar
    /\ In imp (imports grammar)
    /\ resolveImportUri helpers imp = Some u.

(** The name-token check of [findDeclaration] on a node with an element. *)
Definition nameTokenCheck (services : LangiumServices) (helpers : Helpers)
  (sourceCstNode : CstNode) (nodeElem : AstNode) : option AstNode :=
  match getNameNode services nodeElem with
  | Some nameNode =>
      if sameCstNode nameNode sourceCstNode
         || isCstChildNode helpers sourceCstNode nameNode
      then Some nodeElem else None
  | None => None
  end.

(** ** The specification's reading of three operations

    The definitions of this part follow the words of the specification, not
    the sources; they are what the sources are compared with. *)
Module Specified.

Section WithServices.
Variable services : LangiumServices.
Variable helpers : Helpers.



(** Is the node (or is it contained in) the name token of its element? *)
Definition nameTokenOf (sourceCstNode : CstNode) : option AstNode :=
  match DefaultReferences.declarationOfName services helpers sourceCstNode with
  | Return result => result
  | Continue => None
  end.

(** [findDeclaration] as specified: under an assignment with a single
    reference, its target; with an array of references, the one covering the
    node; not inside an assignment but on a name token, the declaration;
    otherwise nothing. *)
Definition findDeclaration (sourceCstNode : option CstNode) : option AstNode :=
  match sourceCstNode with
  | None => None
  | Some sourceCstNode =>
      match element sourceCstNode with
      | None => None
      | Some nodeElem =>
          match findAssignment helpers sourceCstNode with
          | Some assignment =>
              match getProperty helpers nodeElem (feature assignment) with
              | VReference reference => ref reference
              | VArray reference =>
                  match DefaultReferences.findInArray sourceCstNode reference with
                  | Return result => result
                  | Continue => None
                  end
              | VOther => None
              end
          | None => nameTokenOf sourceCstNode
          end
      end
  end.

End WithServices.

End Specified.

(** ** A small workspace

    Grammar [a.langium] imports [./types]; it declares [interface X extends R]
    and the parser rules [R: rule=[AbstractRule]] and [S infers T: {infer U} ...].
    The workspace also holds [types.langium] and the unrelated
    [other.langium]. *)
Module Example.

Definition grammarA : AstNode :=
  mkAstNode 1 (Grammar [{| import_uid := 2; import_path := "./types" |}]) None.
Definition interfaceX : AstNode := mkAstNode 3 (OtherNode "Interface") (Some grammarA).
Definition ruleR : AstNode := mkAstNode 4 (ParserRule "R" None None None) (Some grammarA).
Definition ruleCall : AstNode := mkAstNode 5 (OtherNode "CrossReference") (Some ruleR).
Definition ruleS : AstNode :=
  mkAstNode 6 (ParserRule "S" None None
                 (Some {| inferred_uid := 7; inferred_name := "T" |}))
            (Some grammarA).
Definition actionU : AstNode :=
  mkAstNode 8 (Action (Some {| inferred_uid := 9; inferred_name := "U" |}))
            (Some ruleS).
(** A node that was never attached to a grammar. *)
Definition detached : AstNode := mkAstNode 40 (OtherNode "CrossReference") None.

Definition tokR : CstNode :=
  {| cst_uid := 10; offset := 0; cst_end := 1; element := Some ruleR |}.
Definition tokSuper : CstNode :=
  {| cst_uid := 11; offset := 30; cst_end := 31; element := Some interfaceX |}.
Definition tokX : CstNode :=
  {| cst_uid := 12; offset := 20; cst_end := 21; element := Some interfaceX |}.
Definition tokCall : CstNode :=
  {| cst_uid := 13; offset := 5; cst_end := 6; element := Some ruleCall |}.
Definition tokS : CstNode :=
  {| cst_uid := 14; offset := 40; cst_end := 41; element := Some ruleS |}.
Definition tokT : CstNode :=
  {| cst_uid := 15; offset := 49; cst_end := 50;
     element := inferredType ruleS |}.

Definition uriA : URI := "file:///ws/a.langium".
Definition uriTypes : URI := "file:///ws/types.langium".
Definition uriOther : URI := "file:///ws/other.langium".

Definition describe (nm ty : string) (u : URI) (p : string) : AstNodeDescription :=
  {| desc_node := None; desc_name := nm; nameSegment := None;
     selectionSegment := None; type := ty; documentUri := u; path := p |}.

Definition descR := describe "R" "ParserRule" uriA "/rules@0".
Definition descX := describe "X" "Interface" uriA "/interfaces@0".
Definition descRtype := describe "R" "Interface" uriA "/rules@0".
Definition descAttr := describe "prop" "TypeAttribute" uriA "/interfaces@0/attributes@0".
Definition descY := describe "Y" "Interface" uriTypes "/interfaces@0".
Definition descP := describe "P" "ParserRule" uriTypes "/rules@0".
Definition descQ := describe "Q" "ParserRule" uriOther "/rules@0".
Definition descZ := describe "Z" "Interface" uriOther "/interfaces@0".

Definition refToR (src : URI) (p : string) : ReferenceDescription :=
  {| sourceUri := src; sourcePath := p; targetUri := uriA; targetPath := "/rules@0";
     segment := None; local := String.eqb src uriA |}.

Definition index : IndexManager :=
  [ {| entry_uri := uriA; entry_exports := [descR; descX; descRtype];
       entry_references := [refToR uriA "/rules@1/definition"] |};
    {| entry_uri := uriTypes; entry_exports := [descY; descP];
       entry_references := [] |};
    {| entry_uri := uriOther; entry_exports := [descQ; descZ];
       entry_references := [refToR uriOther "/rules@0/definition"] |} ].

Definition services : LangiumServices :=
  {| getReferenceType := fun context =>
       if String.eqb (property context) "superTypes" then AbstractType
       else "AbstractRule";
     isSubtype := fun sub super =>
       String.eqb sub super
       || (String.eqb super AbstractType
           && (String.eqb sub Interface || String.eqb sub Type_))
       || (String.eqb super "AbstractRule" && String.eqb sub "ParserRule");
     getNameNode := fun n =>
       match uid n with
       | 3 => Some tokX
       | 4 => Some tokR
       | 5 => Some tokCall
       | 6 => Some tokS
       | 7 => Some tokT
       | _ => None
       end;
     getAstNodePath := fun n =>
       match uid n with
       | 3 => "/interfaces@0"
       | 4 => "/rules@0"
       | 6 => "/rules@1"
       | 7 => "/rules@1/inferredType"
       | 8 => "/rules@1/definition"
       | _ => ""
       end;
     indexManager := index |}.

Definition helpersWith (documents : AstNode -> option LangiumDocument) : Helpers :=
  {| node_document := documents;
     streamAllContents := fun n =>
       match uid n with
       | 6 => [actionU]
       | _ => []
       end;
     cstNode := fun n =>
       match uid n with
       | 4 => Some {| cst_uid := 20; offset := 0; cst_end := 19; element := Some ruleR |}
       | 6 => Some {| cst_uid := 21; offset := 40; cst_end := 80; element := Some ruleS |}
       | _ => None
       end;
     getProperty := fun n f =>
       match uid n with
       | 3 => if String.eqb f "superTypes"
              then VArray [VReference {| ref := None; refNode := None |};
                           VReference {| ref := Some ruleR; refNode := Some tokSuper |}]
              else VOther
       | 5 => if String.eqb f "rule"
              then VReference {| ref := None; refNode := Some tokCall |}
              else VOther
       | _ => VOther
       end;
     resolveImportUri := fun imp =>
       match data imp with
       | GrammarImport "./types" => Some uriTypes
       | _ => None
       end;
     getActionType := fun n =>
       match inferredType n with
       | Some t => Some (name t)
       | None => None
       end;
     findAssignment := fun c =>
       match cst_uid c with
       | 10 | 12 => Some {| feature := "name" |}
       | 11 => Some {| feature := "superTypes" |}
       | 13 => Some {| feature := "rule" |}
       | _ => None
       end;
     isCstChildNode := fun _ _ => false |}.

(** The precomputed scopes of [a.langium]: the entries of the named
    declarations, then the one that processing the action [{infer U}]
    adds. *)
Definition scopesA : PrecomputedScopes :=
  [ (grammarA, descR); (grammarA, descX); (grammarA, descRtype);
    (interfaceX, descAttr) ].

Definition unscoped (u : URI) : LangiumDocument :=
  {| uri := u; precomputedScopes := None |}.

Definition docA : LangiumDocument :=
  {| uri := uriA;
     precomputedScopes :=
       Some (LangiumGrammarScopeComputation.processActionNode services
               (helpersWith (fun _ => None)) actionU (unscoped uriA)
               scopesA) |}.


Definition rootDocument (root : AstNode) : option LangiumDocument :=
  if isGrammar root then
    if Nat.eqb (uid root) 70 then Some (unscoped "file:///ws/c.langium")
    else Some docA
  else None.

Definition helpers : Helpers := helpersWith rootDocument.

Definition base : DefaultScopeComputation :=
  {| super_exportNode := fun node exports document =>
       match data node with
       | ParserRule nm _ _ _ =>
           exports ++ [{| desc_node := Some node; desc_name := nm;
                          nameSegment := toDocumentSegment (getNameNode services node);
                          selectionSegment := None; type := "ParserRule";
                          documentUri := uri document;
                          path := getAstNodePath services node |}]
       | _ => exports
       end;
     super_processNode := fun _ _ scopes => scopes |}.

Definition typeReference : ReferenceInfo :=
  {| container := interfaceX; property := "superTypes" |}.
Definition detachedReference : ReferenceInfo :=
  {| container := detached; property := "rule" |}.

End Example.

(** ** LSP providers (lsp/references-provider.ts and the go-to-implementation
    provider)

    What the two providers read from the request and from the document:
    the root of the parse result and [textDocument.offsetAt].  The helper
    [findDeclarationNodeAtOffset] of [utils/cst-util] and the grammar
    configuration are parameters, and [segmentRange] stands for the field
    [range] of a document segment. *)

Record Position := { line : nat; character : nat }.

Record Range := { range_start : Position; range_end : Position }.

Record Location := { loc_uri : string; loc_range : Range }.

Record ParsedDocument := {
  langiumDocument : LangiumDocument;
  parseResult_value : AstNode;
  offsetAt : Position -> Z
}.

Record ReferenceParams := {
  position : Position;
  context_includeDeclaration : bool
}.

Record ImplementationParams := { implementation_position : Position }.

Record LspHelpers := {
  (* utils/cst-util *)
  findDeclarationNodeAtOffset : CstNode -> Z -> string -> option CstNode;
  (* parser.GrammarConfig *)
  nameRegexp : string;
  (* segment.range *)
  segmentRange : DocumentSegment -> Range
}.

Module DefaultReferencesProvider.

Section WithServices.
Variable services : LangiumServices.
Variable helpers : Helpers.
Variable lsp : LspHelpers.

(** [forEach(reference => locations.push(Location.create(...)))]; reading
    [range] off a missing segment raises, which is the result [None]. *)
Fixpoint pushLocations (references : list ReferenceDescription)
  (locations : list Location) : option (list Location) :=
  match references with
  | [] => Some locations
  | reference :: rest =>
      match segment reference with
      | Some seg =>
          pushLocations rest
            (locations ++ [ {| loc_uri := sourceUri reference;
                               loc_range := segmentRange lsp seg |} ])
      | None => None
      end
  end.

Definition getReferences (selectedNode : CstNode) (params : ReferenceParams)
  (_document : ParsedDocument) : option (list Location) :=
  let locations : list Location := [] in
  match DefaultReferences.findDeclaration services helpers (Some selectedNode) with
  | Some targetAstNode =>
      let options := {| onlyLocal := false; opt_documentUri := None;
                        includeDeclaration := context_includeDeclaration params |} in
      pushLocations
        (DefaultReferences.findReferences services helpers targetAstNode options)
        locations
  | None => Some locations
  end.

Definition findReferences (document : ParsedDocument) (params : ReferenceParams)
  : option (list Location) :=
  match cstNode helpers (parseResult_value document) with
  | None => Some []
  | Some rootNode =>
      match findDeclarationNodeAtOffset lsp rootNode
              (offsetAt document (position params)) (nameRegexp lsp) with
      | None => Some []
      | Some selectedNode => getReferences selectedNode params document
      end
  end.

End WithServices.

End DefaultReferencesProvider.

Module AbstractGoToImplementationProvider.

Section WithServices.
Variable services : LangiumServices.
Variable helpers : Helpers.
Variable lsp : LspHelpers.
Variable LocationLink : Type.
(** The abstract method of the class. *)
Variable collectGoToImplementationLocationLinks :
  AstNode -> option (list LocationLink).

Definition getImplementation (document : ParsedDocument)
  (params : ImplementationParams) : option (list LocationLink) :=
  let rootNode := parseResult_value document in
  match cstNode helpers rootNode with
  | Some rootCst =>
      match findDeclarationNodeAtOffset lsp rootCst
              (offsetAt document (implementation_position params))
              (nameRegexp lsp) with
      | Some sourceCstNode =>
          match DefaultReferences.findDeclaration services helpers
                  (Some sourceCstNode) with
          | Some nodeDeclaration =>
              collectGoToImplementationLocationLinks nodeDeclaration
          | None => None
          end
      | None => None
      end
  | None => None
  end.

End WithServices.

End AbstractGoToImplementationProvider.

(** ** Further notions used in the statements *)

(** What [exportNode] exports for one node among the contents of a rule. *)
Definition actionDescription (services : LangiumServices) (helpers : Helpers)
  (document : LangiumDocument) (childNode : AstNode) : list AstNodeDescription :=
  if isAction childNode && isSome (inferredType childNode) then
    match getActionType helpers childNode with
    | Some typeName =>
        if truthy typeName
        then [LangiumGrammarScopeComputation.createInterfaceDescription services
                helpers childNode typeName document]
        else []
    | None => []
    end
  else [].

(** [a ?? b] *)
Definition orElse {A} (a b : option A) : option A :=
  match a with Some _ => a | None => b end.

(** ** A second small workspace, for the providers

    The workspace of [Example], where the root of [a.langium] has a CST node
    and every index reference a segment; [b.langium] is a grammar without
    imports. *)
Module LspExample.

Definition rootCst : CstNode :=
  {| cst_uid := 30; offset := 0; cst_end := 100; element := Some Example.grammarA |}.

Definition someSegment : DocumentSegment :=
  {| seg_offset := 5; seg_end := 6; seg_length := 1 |}.

Definition withSegment (r : ReferenceDescription) : ReferenceDescription :=
  {| sourceUri := sourceUri r; sourcePath := sourcePath r;
     targetUri := targetUri r; targetPath := targetPath r;
     segment := Some someSegment; local := local r |}.

Definition services : LangiumServices :=
  {| getReferenceType := getReferenceType Example.services;
     isSubtype := isSubtype Example.services;
     getNameNode := getNameNode Example.services;
     getAstNodePath := getAstNodePath Example.services;
     indexManager :=
       map (fun e => {| entry_uri := entry_uri e;
                        entry_exports := entry_exports e;
                        entry_references := map withSegment (entry_references e) |})
           Example.index |}.

Definition helpers : Helpers :=
  {| node_document := node_document Example.helpers;
     streamAllContents := streamAllContents Example.helpers;
     cstNode := fun n =>
       match uid n with
       | 1 => Some rootCst
       | _ => cstNode Example.helpers n
       end;
     getProperty := getProperty Example.helpers;
     resolveImportUri := resolveImportUri Example.helpers;
     getActionType := getActionType Example.helpers;
     findAssignment := findAssignment Example.helpers;
     isCstChildNode := isCstChildNode Example.helpers |}.

Definition lsp : LspHelpers :=
  {| findDeclarationNodeAtOffset := fun _ off _ =>
       if (off =? 0)%Z then Some Example.tokR
       else if (off =? 5)%Z then Some Example.tokCall
       else None;
     nameRegexp := "\w";
     segmentRange := fun seg =>
       {| range_start := {| line := 0; character := Z.to_nat (seg_offset seg) |};
          range_end := {| line := 0; character := Z.to_nat (seg_end seg) |} |} |}.

Definition documentA : ParsedDocument :=
  {| langiumDocument := Example.docA;
     parseResult_value := Example.grammarA;
     offsetAt := fun p => Z.of_nat (character p) |}.


Definition grammarB : AstNode := mkAstNode 50 (Grammar []) None.
Definition ruleB : AstNode :=
  mkAstNode 51 (ParserRule "B" None None None) (Some grammarB).
Definition referenceInB : ReferenceInfo :=
  {| container := ruleB; property := "rule" |}.
Definition typeReferenceInS : ReferenceInfo :=
  {| container := Example.actionU; property := "superTypes" |}.

End LspExample.

(** * Properties *)

(** ** Auxiliary facts *)

Lemma equalURI_eq (a b : URI) : equalURI a b = true <-> a = b.
Proof. unfold equalURI. apply String.eqb_eq. Qed.

Lemma sameNode_eq (a b : AstNode) : sameNode a b = true <-> a = b.
Proof.
  unfold sameNode. destruct (AstNode_eq_dec a b); split; congruence.
Qed.

Lemma sameNode_refl (a : AstNode) : sameNode a a = true.
Proof. apply sameNode_eq. reflexivity. Qed.

Lemma nonNullable_In {A} (l : list (option A)) (x : A) :
  In x (nonNullable l) <-> In (Some x) l.
Proof.
  induction l as [| [a |] l IH]; simpl.
  - tauto.
  - rewrite IH. split; intros [H | H]; auto; left; congruence.
  - rewrite IH. split; [auto | intros [H | H]; [discriminate | assumption]].
Qed.

Lemma length_zero_nil {A} (l : list A) : (0 <? length l)%nat = false -> l = [].
Proof. destruct l; [reflexivity | discriminate]. Qed.

Lemma MultiMap_get_add (m : MultiMap.t) (k k' : AstNode) (v : AstNodeDescription) :
  MultiMap.get (MultiMap.add k v m) k'
  = MultiMap.get m k' ++ (if sameNode k k' then [v] else []).
Proof.
  unfold MultiMap.get, MultiMap.add.
  rewrite filter_app, map_app. simpl.
  destruct (sameNode k k'); reflexivity.
Qed.

Lemma MultiMap_get_add_other (m : MultiMap.t) (k k' : AstNode) (v : AstNodeDescription) :
  k <> k' -> MultiMap.get (MultiMap.add k v m) k' = MultiMap.get m k'.
Proof.
  intros Hne. rewrite MultiMap_get_add.
  destruct (sameNode k k') eqn:E.
  - apply sameNode_eq in E. contradiction.
  - apply app_nil_r.
Qed.

Lemma getAllElements_layers (layers : list (list AstNodeDescription)) (g : Scope) :
  getAllElements (fold_right createScope g layers)
  = concat layers ++ getAllElements g.
Proof.
  induction layers as [| l ls IH]; simpl.
  - reflexivity.
  - rewrite IH. apply app_assoc.
Qed.

Lemma imported_filter (helpers : Helpers) (grammar : AstNode) (u : URI) :
  existsb (fun importedUri => equalURI u importedUri)
          (nonNullable (map (resolveImportUri helpers) (imports grammar))) = true
  <-> exists imp, In imp (imports grammar) /\ resolveImportUri helpers imp = Some u.
Proof.
  rewrite existsb_exists. split.
  - intros (x & Hin & Heq). apply equalURI_eq in Heq. subst x.
    apply nonNullable_In, in_map_iff in Hin.
    destruct Hin as (imp & Himp & Hin). eauto.
  - intros (imp & Hin & Himp). exists u. split.
    + apply nonNullable_In, in_map_iff. eauto.
    + apply equalURI_eq. reflexivity.
Qed.

Lemma getGlobalScope_elements (services : LangiumServices) (helpers : Helpers)
  (referenceType : string) (context : ReferenceInfo) (d : AstNodeDescription) :
  In d (getAllElements
          (LangiumGrammarScopeProvider.getGlobalScope services helpers referenceType context))
  <-> In d (allElements services referenceType)
      /\ importedBy helpers context (documentUri d)
      /\ (referenceType = AbstractType ->
          LangiumGrammarScopeProvider.isInterfaceOrType d = true).
Proof.
  unfold LangiumGrammarScopeProvider.getGlobalScope, importedBy.
  destruct (getContainerOfType (container context) isGrammar) as [grammar |] eqn:G.
  - destruct (String.eqb referenceType AbstractType) eqn:E; simpl;
      rewrite app_nil_r, !filter_In, imported_filter.
    + split.
      * intros ((Hin & imp & Himp) & Hty). split; [assumption |].
        split; [exists grammar, imp; tauto | intros _; assumption].
      * intros (Hin & (g & imp & Hg & Himp) & Hty).
        injection Hg as <-. apply String.eqb_eq in E. eauto.
    + apply String.eqb_neq in E. split.
      * intros (Hin & imp & Himp). split; [assumption |].
        split; [exists grammar, imp; tauto | intros Heq; contradiction].
      * intros (Hin & (g & imp & Hg & Himp) & _). injection Hg as <-. eauto.
  - simpl. split; [contradiction |].
    intros (_ & (g & _ & Hg & _) & _). discriminate.
Qed.

Lemma getTypeScope_cases (services : LangiumServices) (helpers : Helpers)
  (referenceType : string) (context : ReferenceInfo) :
  let localScope :=
    match precomputedScopes (getDocument helpers (container context)) with
    | Some precomputed =>
        filter LangiumGrammarScopeProvider.isInterfaceOrType
               (MultiMap.get precomputed (findRootNode (container context)))
    | None => []
    end in
  let globalScope :=
    LangiumGrammarScopeProvider.getGlobalScope services helpers referenceType context in
  LangiumGrammarScopeProvider.getTypeScope services helpers referenceType context
  = globalScope /\ localScope = []
  \/ LangiumGrammarScopeProvider.getTypeScope services helpers referenceType context
     = createScope localScope globalScope.
Proof.
  unfold LangiumGrammarScopeProvider.getTypeScope. simpl.
  destruct (precomputedScopes (getDocument helpers (container context)))
    as [precomputed |].
  - destruct (0 <? length _)%nat eqn:E.
    + right. reflexivity.
    + left. apply length_zero_nil in E. rewrite E. split; reflexivity.
  - left. split; reflexivity.
Qed.

Lemma getTypeScope_elements (services : LangiumServices) (helpers : Helpers)
  (referenceType : string) (context : ReferenceInfo) :
  getAllElements
    (LangiumGrammarScopeProvider.getTypeScope services helpers referenceType context)
  = match precomputedScopes (getDocument helpers (container context)) with
    | Some precomputed =>
        filter LangiumGrammarScopeProvider.isInterfaceOrType
               (MultiMap.get precomputed (findRootNode (container context)))
    | None => []
    end
    ++ getAllElements
         (LangiumGrammarScopeProvider.getGlobalScope services helpers referenceType context).
Proof.
  destruct (getTypeScope_cases services helpers referenceType context)
    as [[-> ->] | ->]; reflexivity.
Qed.

Lemma getScope_AbstractType (services : LangiumServices) (helpers : Helpers)
  (context : ReferenceInfo) :
  getReferenceType services context = AbstractType ->
  LangiumGrammarScopeProvider.getScope services helpers context
  = LangiumGrammarScopeProvider.getTypeScope services helpers AbstractType context.
Proof.
  intros Hty. unfold LangiumGrammarScopeProvider.getScope. rewrite Hty. reflexivity.
Qed.

Lemma localScopes_entries (services : LangiumServices)
  (precomputed : PrecomputedScopes) (referenceType : string) (d : AstNodeDescription) :
  forall node,
    In d (concat (DefaultScopeProvider.localScopes services precomputed
                    referenceType node)) ->
    exists k, In d (MultiMap.get precomputed k)
              /\ isSubtype services (type d) referenceType = true.
Proof.
  fix IH 1. intros [u dt [c |]]; simpl.
  - destruct (0 <? length _)%nat; simpl.
    + rewrite in_app_iff, filter_In. intros [[Hin Hsub] | Hin]; eauto.
    + intros Hin. eauto.
  - destruct (0 <? length _)%nat; simpl.
    + rewrite app_nil_r, filter_In. intros [Hin Hsub]. eauto.
    + contradiction.
Qed.

Lemma getDocument_of_root (helpers : Helpers) (node : AstNode)
  (document : LangiumDocument) :
  node_document helpers (findRootNode node) = Some document ->
  getDocument helpers node = document.
Proof.
  intros H. unfold getDocument, AstUtil.getDocument. rewrite H. reflexivity.
Qed.

(** Where the container has a document, the operations written for nodes
    with a document give what the source returns. *)
Lemma Raising_getScope_returns (services : LangiumServices) (helpers : Helpers)
  (context : ReferenceInfo) (document : LangiumDocument) :
  node_document helpers (findRootNode (container context)) = Some document ->
  Raising.getScope services helpers context
  = Returns (LangiumGrammarScopeProvider.getScope services helpers context).
Proof.
  intros H.
  unfold Raising.getScope, Raising.getTypeScope, Raising.defaultGetScope,
    LangiumGrammarScopeProvider.getScope,
    LangiumGrammarScopeProvider.getTypeScope, DefaultScopeProvider.getScope.
  rewrite (getDocument_of_root helpers (container context) document H).
  unfold AstUtil.getDocument. rewrite H.
  destruct (String.eqb (getReferenceType services context) AbstractType);
    reflexivity.
Qed.

(** ** Scope provider *)







(** C6, as amended.  When the container of the reference has no enclosing
    [Grammar], [getGlobalScope] returns [EMPTY_SCOPE] for every reference
    type.  [getScope] first asks for the document of the container: when
    the root node carries none it raises 'AST node has no document.'; when
    it carries one, [getScope] returns a scope without global elements,
    made of the precomputed scopes of that document only, which is
    [EMPTY_SCOPE] when the document has no precomputed scopes. *)
Theorem getScope_without_grammar :
  forall (services : LangiumServices) (helpers : Helpers) (context : ReferenceInfo),
    getContainerOfType (container context) isGrammar = None ->
    (forall referenceType,
        LangiumGrammarScopeProvider.getGlobalScope services helpers
          referenceType context = EMPTY_SCOPE)
    /\ (node_document helpers (findRootNode (container context)) = None ->
        Raising.getScope services helpers context
        = Throws "AST node has no document.")
    /\ (forall document,
          node_document helpers (findRootNode (container context)) = Some document ->
          exists scope,
            Raising.getScope services helpers context = Returns scope
            /\ (precomputedScopes document = None -> scope = EMPTY_SCOPE)
            /\ (forall d,
                  In d (getAllElements scope) ->
                  exists precomputed k,
                    precomputedScopes document = Some precomputed
                    /\ In d (MultiMap.get precomputed k))).
Proof.
  intros services helpers context Hg.
  assert (Hglobal : forall rt,
    LangiumGrammarScopeProvider.getGlobalScope services helpers rt context = EMPTY_SCOPE).
  { intros rt. unfold LangiumGrammarScopeProvider.getGlobalScope.
    rewrite Hg. reflexivity. }
  split; [exact Hglobal |]. split.
  - intros Hnone.
    unfold Raising.getScope, Raising.getTypeScope, Raising.defaultGetScope,
      AstUtil.getDocument.
    rewrite Hnone.
    destruct (String.eqb (getReferenceType services context) AbstractType);
      reflexivity.
  - intros document Hdoc.
    unfold Raising.getScope, Raising.getTypeScope, Raising.defaultGetScope,
      AstUtil.getDocument.
    rewrite Hdoc, !Hglobal.
    destruct (String.eqb (getReferenceType services context) AbstractType).
    + eexists. split; [reflexivity |]. split.
      * intros ->. reflexivity.
      * destruct (precomputedScopes document) as [precomputed |];
          [| intros d []].
        destruct (0 <? length _)%nat; [| intros d []].
        intros d Hin. simpl in Hin. rewrite app_nil_r in Hin.
        apply filter_In in Hin.
        exists precomputed. eexists. split; [reflexivity | apply Hin].
    + eexists. split; [reflexivity |]. split.
      * intros ->. reflexivity.
      * intros d Hin. rewrite getAllElements_layers in Hin.
        simpl in Hin. rewrite app_nil_r in Hin.
        destruct (precomputedScopes document) as [precomputed |];
          [| contradiction].
        apply localScopes_entries in Hin. destruct Hin as (k & Hin & _).
        exists precomputed, k. split; [reflexivity | exact Hin].
Qed.

(** C6, witness: a reference in the grammar-less root of no document, and
    the same node given a document that has not been scoped. *)
Lemma getScope_without_grammar_witness :
  Raising.getScope Example.services Example.helpers Example.detachedReference
  = Throws "AST node has no document."
  /\ Raising.getScope Example.services
       (Example.helpersWith (fun _ => Some (Example.unscoped "untitled:1")))
       Example.detachedReference
     = Returns EMPTY_SCOPE.
Proof.
  split.
  - destruct (getScope_without_grammar Example.services Example.helpers
                Example.detachedReference eq_refl) as (_ & H & _).
    exact (H eq_refl).
  - destruct (getScope_without_grammar Example.services
                (Example.helpersWith (fun _ => Some (Example.unscoped "untitled:1")))
                Example.detachedReference eq_refl) as (_ & _ & H).
    destruct (H _ eq_refl) as (scope & -> & Hempty & _).
    rewrite (Hempty eq_refl). reflexivity.
Defined.

(** C6, as stated, fails: for a reference whose container has neither an
    enclosing [Grammar] nor a document root, [getScope] does not return the
    empty scope; it raises. *)
Lemma getScope_without_document_raises :
  ~ (getContainerOfType (container Example.detachedReference) isGrammar = None ->
     node_document Example.helpers
       (findRootNode (container Example.detachedReference)) = None ->
     Raising.getScope Example.services Example.helpers Example.detachedReference
     = Returns EMPTY_SCOPE).
Proof.
  intros H. specialize (H eq_refl eq_refl). vm_compute in H. discriminate H.
Qed.

(** ** Scope computation *)

Lemma exportAction_appends (services : LangiumServices) (helpers : Helpers)
  (document : LangiumDocument) (children : list AstNode) :
  forall exports,
  exists added,
    fold_left (LangiumGrammarScopeComputation.exportAction services helpers document)
              children exports
    = exports ++ added.
Proof.
  induction children as [| c rest IH]; intros exports; simpl.
  - exists []. symmetry. apply app_nil_r.
  - assert (Hstep : exists one,
      LangiumGrammarScopeComputation.exportAction services helpers document exports c
      = exports ++ one).
    { unfold LangiumGrammarScopeComputation.exportAction.
      destruct (isAction c && isSome (inferredType c));
        [| exists []; symmetry; apply app_nil_r].
      destruct (getActionType helpers c) as [typeName |];
        [| exists []; symmetry; apply app_nil_r].
      destruct (truthy typeName); [eexists; reflexivity |].
      exists []. symmetry. apply app_nil_r. }
    destruct Hstep as (one & ->).
    destruct (IH (exports ++ one)) as (added & ->).
    exists (one ++ added). symmetry. apply app_assoc.
Qed.

Lemma inferredType_child (node t : AstNode) :
  inferredType node = Some t ->
  node_container t = Some node /\ exists nm, data t = InferredType nm.
Proof.
  unfold inferredType.
  destruct (data node) as [ | | ? ? ? [d |] | [d |] | | | ]; try discriminate;
    intros [= <-]; simpl; eauto.
Qed.

(** C5, as amended.  A parser rule with neither [returnType] nor [dataType]
    exports, right after what the base class exports for it, a description
    tagged ['Interface'] under the name of its type node, anchored at that
    type node with the name segment of that node's name token.  The type
    node is the rule itself when the rule has no [infers] clause, and the
    [InferredType] child of the rule, a different node, when it has one. *)
Theorem exportNode_inferred_rule_type :
  forall (services : LangiumServices) (helpers : Helpers)
         (base : DefaultScopeComputation) (node : AstNode)
         (exports : list AstNodeDescription) (document : LangiumDocument),
    isParserRule node = true ->
    returnType node = None ->
    dataType node = None ->
    let typeNode := LangiumGrammarScopeComputation.typeNodeOf node in
    let description :=
      LangiumGrammarScopeComputation.createInterfaceDescription services helpers
        typeNode (name typeNode) document in
    (exists actionExports,
        LangiumGrammarScopeComputation.exportNode services helpers base node
          exports document
        = super_exportNode base node exports document
          ++ description :: actionExports)
    /\ type description = "Interface"
    /\ desc_name description = name typeNode
    /\ desc_node description = Some typeNode
    /\ path description = getAstNodePath services typeNode
    /\ nameSegment description
       = toDocumentSegment (match getNameNode services typeNode with
                            | Some n => Some n
                            | None => cstNode helpers typeNode
                            end)
    /\ (inferredType node = None -> typeNode = node)
    /\ (forall t, inferredType node = Some t ->
                  typeNode = t /\ node_container t = Some node /\ t <> node).
Proof.
  intros services helpers base node exports document Hrule Hret Hdata
         typeNode description.
  split; [| repeat split].
  - unfold LangiumGrammarScopeComputation.exportNode.
    rewrite Hrule, Hret, Hdata. simpl negb. simpl andb. cbv iota.
    destruct (exportAction_appends services helpers document
                (streamAllContents helpers node)
                (super_exportNode base node exports document ++ [description]))
      as (added & Hadd).
    exists added. fold typeNode. fold description. rewrite Hadd.
    rewrite <- app_assoc. reflexivity.
  - intros Hnone. unfold typeNode, LangiumGrammarScopeComputation.typeNodeOf.
    rewrite Hnone. reflexivity.
  - unfold typeNode, LangiumGrammarScopeComputation.typeNodeOf.
    rewrite H. reflexivity.
  - apply inferredType_child in H. tauto.
  - intros ->. apply inferredType_child in H. destruct H as (_ & nm & Hnm).
    unfold isParserRule in Hrule. rewrite Hnm in Hrule. discriminate.
Qed.

(** C5, witness: rule [S infers T]. *)
Lemma exportNode_inferred_rule_type_witness :
  map desc_name
      (LangiumGrammarScopeComputation.exportNode Example.services Example.helpers
         Example.base Example.ruleS [] Example.docA)
  = ["S"; "T"; "U"]
  /\ LangiumGrammarScopeComputation.typeNodeOf Example.ruleS <> Example.ruleS.
Proof.
  destruct (exportNode_inferred_rule_type Example.services Example.helpers
              Example.base Example.ruleS [] Example.docA
              eq_refl eq_refl eq_refl) as (_ & _ & _ & _ & _ & _ & _ & H).
  split; [reflexivity |].
  destruct (H _ eq_refl) as (-> & _ & Hne). exact Hne.
Defined.

(** C5, as stated, fails: for [S infers T] no exported ['Interface']
    description is anchored at the rule node [S] itself; the one under the
    name [T] is anchored at the [InferredType] child and carries the segment
    of the token [T], not of the rule's name token [S]. *)
Lemma exportNode_infers_not_anchored_at_rule :
  ~ (isParserRule Example.ruleS = true ->
     returnType Example.ruleS = None ->
     dataType Example.ruleS = None ->
     exists d,
       In d (LangiumGrammarScopeComputation.exportNode Example.services
               Example.helpers Example.base Example.ruleS [] Example.docA)
       /\ type d = "Interface"
       /\ desc_name d = "T"
       /\ desc_node d = Some Example.ruleS
       /\ nameSegment d = toDocumentSegment (getNameNode Example.services Example.ruleS)).
Proof.
  intros H. destruct (H eq_refl eq_refl eq_refl) as (d & Hin & Hty & _ & Hnode & _).
  vm_compute in Hin.
  destruct Hin as [<- | [<- | [<- | []]]]; vm_compute in Hty, Hnode; discriminate.
Qed.

(** C8.  The description made for an [infer] action is added to the
    precomputed scopes under the root node of the action, which makes it
    part of the local layer of every type reference of the document and
    leaves the entries of every other node as they were; the description
    made for the inferred type of a rule is added under the immediate
    container of the rule, and under no other node. *)
Theorem processNode_inferred_types :
  forall (services : LangiumServices) (helpers : Helpers)
         (base : DefaultScopeComputation) (document : LangiumDocument)
         (scopes : PrecomputedScopes),
    (forall (action : AstNode) (typeName : string),
        isAction action = true ->
        inferredType action <> None ->
        getActionType helpers action = Some typeName ->
        typeName <> "" ->
        let description :=
          LangiumGrammarScopeComputation.createInterfaceDescription services
            helpers action typeName document in
        let scopes' :=
          LangiumGrammarScopeComputation.processActionNode services helpers
            action document scopes in
        scopes' = MultiMap.add (findRootNode action) description scopes
        /\ LangiumGrammarScopeComputation.processNode services helpers base
             action document scopes
           = super_processNode base action document scopes'
        /\ type description = "Interface"
        /\ MultiMap.get scopes' (findRootNode action)
           = MultiMap.get scopes (findRootNode action) ++ [description]
        /\ (forall k, k <> findRootNode action ->
                      MultiMap.get scopes' k = MultiMap.get scopes k)
        /\ (forall context,
               getReferenceType services context = AbstractType ->
               findRootNode (container context) = findRootNode action ->
               precomputedScopes (getDocument helpers (container context))
               = Some scopes' ->
               In description
                  (getAllElements
                     (LangiumGrammarScopeProvider.getScope services helpers context))))
    /\ (forall (rule ruleContainer : AstNode),
          isParserRule rule = true ->
          returnType rule = None ->
          dataType rule = None ->
          node_container rule = Some ruleContainer ->
          let typeNode := LangiumGrammarScopeComputation.typeNodeOf rule in
          let description :=
            LangiumGrammarScopeComputation.createInterfaceDescription services
              helpers typeNode (name typeNode) document in
          let scopes' :=
            LangiumGrammarScopeComputation.processTypeNode services helpers
              rule document scopes in
          scopes' = MultiMap.add ruleContainer description scopes
          /\ LangiumGrammarScopeComputation.processNode services helpers base
               rule document scopes
             = super_processNode base rule document scopes'
          /\ MultiMap.get scopes' ruleContainer
             = MultiMap.get scopes ruleContainer ++ [description]
          /\ (forall k, k <> ruleContainer ->
                        MultiMap.get scopes' k = MultiMap.get scopes k)).
Proof.
  intros services helpers base document scopes. split.
  - intros action typeName Hact Hinf Htype Hname description scopes'.
    assert (Hsome : isSome (inferredType action) = true)
      by (destruct (inferredType action); [reflexivity | contradiction]).
    assert (Htruthy : truthy typeName = true)
      by (unfold truthy; apply negb_true_iff, String.eqb_neq; exact Hname).
    assert (Hscopes : scopes' = MultiMap.add (findRootNode action) description scopes).
    { unfold scopes', LangiumGrammarScopeComputation.processActionNode.
      rewrite Hact, Hsome, Htype, Htruthy. reflexivity. }
    assert (Hnotrule : isParserRule action = false).
    { unfold isAction in Hact. unfold isParserRule.
      destruct (data action); try discriminate; reflexivity. }
    assert (Hnotret : isReturnType action = false).
    { unfold isAction in Hact. unfold isReturnType.
      destruct (data action); try discriminate; reflexivity. }
    assert (Hget : MultiMap.get scopes' (findRootNode action)
                   = MultiMap.get scopes (findRootNode action) ++ [description]).
    { rewrite Hscopes, MultiMap_get_add, sameNode_refl. reflexivity. }
    repeat split.
    + exact Hscopes.
    + unfold LangiumGrammarScopeComputation.processNode. rewrite Hnotret.
      unfold LangiumGrammarScopeComputation.processTypeNode.
      rewrite Hnotrule. simpl andb.
      destruct (node_container action); reflexivity.
    + exact Hget.
    + intros k Hk. rewrite Hscopes. apply MultiMap_get_add_other. congruence.
    + intros context Hty Hroot Hpre.
      rewrite (getScope_AbstractType services helpers context Hty).
      rewrite getTypeScope_elements, Hpre, Hroot, Hget.
      apply in_or_app. left. apply filter_In. split.
      * apply in_or_app. right. left. reflexivity.
      * reflexivity.
  - intros rule ruleContainer Hrule Hret Hdata Hcont typeNode description scopes'.
    assert (Hscopes : scopes' = MultiMap.add ruleContainer description scopes).
    { unfold scopes', LangiumGrammarScopeComputation.processTypeNode.
      rewrite Hcont, Hrule, Hret, Hdata. reflexivity. }
    assert (Hnotact : isAction rule = false).
    { unfold isParserRule in Hrule. unfold isAction.
      destruct (data rule); try discriminate; reflexivity. }
    assert (Hnotret : isReturnType rule = false).
    { unfold isParserRule in Hrule. unfold isReturnType.
      destruct (data rule); try discriminate; reflexivity. }
    repeat split.
    + exact Hscopes.
    + unfold LangiumGrammarScopeComputation.processNode. rewrite Hnotret.
      fold scopes'.
      unfold LangiumGrammarScopeComputation.processActionNode.
      rewrite Hnotact. reflexivity.
    + rewrite Hscopes, MultiMap_get_add, sameNode_refl. reflexivity.
    + intros k Hk. rewrite Hscopes. apply MultiMap_get_add_other. congruence.
Qed.

(** C8, witness: the action [{infer U}] inside rule [S], seen from the
    reference [extends R] of [interface X], and the rule [S infers T]. *)
Lemma processNode_inferred_types_witness :
  In (LangiumGrammarScopeComputation.createInterfaceDescription Example.services
        Example.helpers Example.actionU "U" Example.docA)
     (getAllElements
        (LangiumGrammarScopeProvider.getScope Example.services Example.helpers
           Example.typeReference))
  /\ MultiMap.get
       (LangiumGrammarScopeComputation.processActionNode Example.services
          Example.helpers Example.actionU Example.docA Example.scopesA)
       Example.ruleS = []
  /\ LangiumGrammarScopeComputation.processTypeNode Example.services
       Example.helpers Example.ruleS Example.docA Example.scopesA
     = MultiMap.add Example.grammarA
         (LangiumGrammarScopeComputation.createInterfaceDescription
            Example.services Example.helpers
            (LangiumGrammarScopeComputation.typeNodeOf Example.ruleS) "T"
            Example.docA)
         Example.scopesA.
Proof.
  destruct (processNode_inferred_types Example.services Example.helpers
              Example.base Example.docA Example.scopesA) as (Haction & Hrule).
  destruct (Haction Example.actionU "U" eq_refl) as (_ & _ & _ & _ & Hother & Hsee);
    try discriminate; try reflexivity.
  destruct (Hrule Example.ruleS Example.grammarA eq_refl eq_refl eq_refl eq_refl)
    as (Hadd & _).
  split; [| split].
  - apply Hsee; reflexivity.
  - rewrite Hother; [reflexivity | discriminate].
  - exact Hadd.
Defined.

(** ** Declarations and references *)

Lemma findInArray_first (sourceCstNode : CstNode)
  (before after : list PropertyValue) (r : PropertyValue) (rf : Reference) :
  (forall x, In x before -> DefaultReferences.refCovers sourceCstNode x = None) ->
  DefaultReferences.refCovers sourceCstNode r = Some rf ->
  DefaultReferences.findInArray sourceCstNode (before ++ r :: after)
  = Return (ref rf).
Proof.
  intros Hbefore Hr. induction before as [| b before IH]; simpl.
  - rewrite Hr. reflexivity.
  - rewrite (Hbefore b (or_introl eq_refl)).
    apply IH. intros x Hx. apply Hbefore. right. exact Hx.
Qed.

Lemma findInArray_none (sourceCstNode : CstNode) (items : list PropertyValue) :
  (forall x, In x items -> DefaultReferences.refCovers sourceCstNode x = None) ->
  DefaultReferences.findInArray sourceCstNode items = Continue.
Proof.
  intros Hall. induction items as [| b items IH]; simpl.
  - reflexivity.
  - rewrite (Hall b (or_introl eq_refl)).
    apply IH. intros x Hx. apply Hall. right. exact Hx.
Qed.

Lemma refCovers_spec (sourceCstNode : CstNode) (r : PropertyValue) (rf : Reference) :
  DefaultReferences.refCovers sourceCstNode r = Some rf
  <-> r = VReference rf
      /\ exists rn, refNode rf = Some rn
                    /\ (offset rn <= offset sourceCstNode)%Z
                    /\ (cst_end rn >= cst_end sourceCstNode)%Z.
Proof.
  unfold DefaultReferences.refCovers. split.
  - destruct r as [rf' | |]; try discriminate.
    destruct (refNode rf') as [rn |] eqn:Ern; try discriminate.
    destruct (offset rn <=? offset sourceCstNode)%Z eqn:E1; try discriminate.
    destruct (cst_end rn >=? cst_end sourceCstNode)%Z eqn:E2; try discriminate.
    simpl. intros [= <-]. split; [reflexivity |].
    exists rn. repeat split; [assumption | lia | lia].
  - intros (-> & rn & -> & H1 & H2).
    apply Z.leb_le in H1. rewrite H1.
    apply Z.ge_le, Z.geb_le in H2. rewrite H2. reflexivity.
Qed.

(** C3, as amended.  Under an assignment whose feature value on the node's
    element is a single reference, [findDeclaration] returns the target of
    that reference; when the value is an array, the target of its first
    element that is a reference whose recorded node spans the queried node.
    In every other case with an element -- no assignment, a value that is no
    reference, or an array without such an element -- it returns the
    element when the queried node is, or lies in, the element's name node,
    and nothing otherwise; without an element, or without a node, it
    returns nothing. *)
Theorem findDeclaration_cases :
  forall (services : LangiumServices) (helpers : Helpers) (sourceCstNode : CstNode),
    (forall assignment nodeElem reference,
        findAssignment helpers sourceCstNode = Some assignment ->
        element sourceCstNode = Some nodeElem ->
        getProperty helpers nodeElem (feature assignment) = VReference reference ->
        DefaultReferences.findDeclaration services helpers (Some sourceCstNode)
        = ref reference)
    /\ (forall assignment nodeElem before r after rf,
          findAssignment helpers sourceCstNode = Some assignment ->
          element sourceCstNode = Some nodeElem ->
          getProperty helpers nodeElem (feature assignment)
          = VArray (before ++ r :: after) ->
          (forall x, In x before ->
                     DefaultReferences.refCovers sourceCstNode x = None) ->
          DefaultReferences.refCovers sourceCstNode r = Some rf ->
          DefaultReferences.findDeclaration services helpers (Some sourceCstNode)
          = ref rf)
    /\ (forall nodeElem,
          element sourceCstNode = Some nodeElem ->
          (findAssignment helpers sourceCstNode = None
           \/ exists assignment,
               findAssignment helpers sourceCstNode = Some assignment
               /\ (getProperty helpers nodeElem (feature assignment) = VOther
                   \/ exists items,
                       getProperty helpers nodeElem (feature assignment)
                       = VArray items
                       /\ forall x, In x items ->
                            DefaultReferences.refCovers sourceCstNode x = None)) ->
          DefaultReferences.findDeclaration services helpers (Some sourceCstNode)
          = nameTokenCheck services helpers sourceCstNode nodeElem)
    /\ (element sourceCstNode = None ->
        DefaultReferences.findDeclaration services helpers (Some sourceCstNode)
        = None)
    /\ DefaultReferences.findDeclaration services helpers None = None.
Proof.
  intros services helpers sourceCstNode.
  unfold DefaultReferences.findDeclaration, DefaultReferences.declarationOfReference,
    DefaultReferences.declarationOfName, nameTokenCheck.
  split; [| split; [| split; [| split]]].
  - intros assignment nodeElem reference -> -> ->. reflexivity.
  - intros assignment nodeElem before r after rf -> -> -> Hbefore Hr.
    rewrite (findInArray_first _ _ _ _ _ Hbefore Hr). reflexivity.
  - intros nodeElem -> Hcase.
    assert (Hname :
      match
        match getNameNode services nodeElem with
        | Some nameNode =>
            if sameCstNode nameNode sourceCstNode
               || isCstChildNode helpers sourceCstNode nameNode
            then Return (Some nodeElem) else Continue
        | None => Continue
        end
      with
      | Return result => result
      | Continue => None
      end
      = match getNameNode services nodeElem with
        | Some nameNode =>
            if sameCstNode nameNode sourceCstNode
               || isCstChildNode helpers sourceCstNode nameNode
            then Some nodeElem else None
        | None => None
        end).
    { destruct (getNameNode services nodeElem) as [nameNode |]; [| reflexivity].
      destruct (sameCstNode nameNode sourceCstNode
                || isCstChildNode helpers sourceCstNode nameNode); reflexivity. }
    destruct Hcase as [-> | (assignment & -> & [-> | (items & -> & Hnone)])].
    + exact Hname.
    + exact Hname.
    + rewrite (findInArray_none _ _ Hnone). exact Hname.
  - intros ->. destruct (findAssignment helpers sourceCstNode); reflexivity.
  - reflexivity.
Qed.

(** C3, witness: the unresolved rule call, the second super type of
    [interface X], and the name tokens of [R] (under the assignment
    [name=ID]) and of [S] (under no assignment). *)
Lemma findDeclaration_cases_witness :
  DefaultReferences.findDeclaration Example.services Example.helpers
    (Some Example.tokCall) = None
  /\ DefaultReferences.findDeclaration Example.services Example.helpers
       (Some Example.tokSuper) = Some Example.ruleR
  /\ DefaultReferences.findDeclaration Example.services Example.helpers
       (Some Example.tokR) = Some Example.ruleR
  /\ DefaultReferences.findDeclaration Example.services Example.helpers
       (Some Example.tokS) = Some Example.ruleS.
Proof.
  split; [| split; [| split]].
  - destruct (findDeclaration_cases Example.services Example.helpers Example.tokCall)
      as (H & _).
    exact (H {| feature := "rule" |} Example.ruleCall
             {| ref := None; refNode := Some Example.tokCall |}
             eq_refl eq_refl eq_refl).
  - destruct (findDeclaration_cases Example.services Example.helpers Example.tokSuper)
      as (_ & H & _).
    apply (H {| feature := "superTypes" |} Example.interfaceX
             [VReference {| ref := None; refNode := None |}]
             (VReference {| ref := Some Example.ruleR;
                            refNode := Some Example.tokSuper |})
             []
             {| ref := Some Example.ruleR; refNode := Some Example.tokSuper |}
             eq_refl eq_refl eq_refl).
    + intros x [<- | []]. reflexivity.
    + reflexivity.
  - destruct (findDeclaration_cases Example.services Example.helpers Example.tokR)
      as (_ & _ & H & _).
    rewrite (H Example.ruleR eq_refl); [reflexivity |].
    right. exists {| feature := "name" |}. split; [reflexivity |].
    left. reflexivity.
  - destruct (findDeclaration_cases Example.services Example.helpers Example.tokS)
      as (_ & _ & H & _).
    rewrite (H Example.ruleS eq_refl); [reflexivity |].
    left. reflexivity.
Defined.

(** C3, as stated, fails: the name token of rule [R] lies under the
    assignment [name=ID], whose value is no reference; the specified
    [findDeclaration] yields nothing there, the source yields the rule. *)
Lemma findDeclaration_name_token_under_assignment :
  ~ (DefaultReferences.findDeclaration Example.services Example.helpers
       (Some Example.tokR)
     = Specified.findDeclaration Example.services Example.helpers
         (Some Example.tokR)).
Proof.
  vm_compute. discriminate.
Qed.

(** C10.  Under an assignment whose feature value is a single unresolved
    reference, the first block of [findDeclaration] returns [undefined], and
    so does [findDeclaration], whatever the name-token check would give. *)
Theorem findDeclaration_unresolved_reference :
  forall (services : LangiumServices) (helpers : Helpers) (sourceCstNode : CstNode)
         (assignment : Assignment) (nodeElem : AstNode) (reference : Reference),
    findAssignment helpers sourceCstNode = Some assignment ->
    element sourceCstNode = Some nodeElem ->
    getProperty helpers nodeElem (feature assignment) = VReference reference ->
    ref reference = None ->
    DefaultReferences.declarationOfReference helpers sourceCstNode = Return None
    /\ DefaultReferences.findDeclaration services helpers (Some sourceCstNode) = None.
Proof.
  intros services helpers sourceCstNode assignment nodeElem reference
         Hassign Helem Hprop Href.
  assert (H : DefaultReferences.declarationOfReference helpers sourceCstNode
              = Return None).
  { unfold DefaultReferences.declarationOfReference.
    rewrite Hassign, Helem, Hprop, Href. reflexivity. }
  split; [exact H |].
  unfold DefaultReferences.findDeclaration. rewrite H. reflexivity.
Qed.

(** C10, witness: the token of the unresolved rule call is also the name
    node of its own element. *)
Lemma findDeclaration_unresolved_reference_witness :
  DefaultReferences.declarationOfName Example.services Example.helpers
    Example.tokCall = Return (Some Example.ruleCall)
  /\ DefaultReferences.findDeclaration Example.services Example.helpers
       (Some Example.tokCall) = None.
Proof.
  split; [reflexivity |].
  apply (findDeclaration_unresolved_reference Example.services Example.helpers
           Example.tokCall {| feature := "rule" |} Example.ruleCall
           {| ref := None; refNode := Some Example.tokCall |});
    reflexivity.
Defined.

Lemma findAllReferences_In (services : LangiumServices) (helpers : Helpers)
  (targetNode : AstNode) (astNodePath : string) (r : ReferenceDescription) :
  In r (findAllReferences services helpers targetNode astNodePath)
  <-> (exists entry, In entry (indexManager services)
                     /\ In r (entry_references entry))
      /\ targetUri r = uri (getDocument helpers targetNode)
      /\ targetPath r = astNodePath.
Proof.
  unfold findAllReferences. rewrite filter_In, in_flat_map, andb_true_iff.
  rewrite equalURI_eq, String.eqb_eq. tauto.
Qed.





(** * Further properties *)

(** ** Scope provider *)

Lemma isInterfaceOrType_tag (d : AstNodeDescription) :
  LangiumGrammarScopeProvider.isInterfaceOrType d = true
  <-> type d = Interface \/ type d = Type_.
Proof.
  unfold LangiumGrammarScopeProvider.isInterfaceOrType.
  rewrite orb_true_iff, !String.eqb_eq. tauto.
Qed.


(** X1.  A reference to an [AbstractType] is only ever offered descriptions
    tagged [Interface] or [Type], whatever the precomputed scopes and the
    index hold. *)
Theorem getScope_type_reference_only_types :
  forall (services : LangiumServices) (helpers : Helpers) (context : ReferenceInfo)
         (d : AstNodeDescription),
    getReferenceType services context = AbstractType ->
    In d (getAllElements
            (LangiumGrammarScopeProvider.getScope services helpers context)) ->
    type d = Interface \/ type d = Type_.
Proof.
  intros services helpers context d Hty Hin.
  rewrite (getScope_AbstractType services helpers context Hty) in Hin.
  rewrite getTypeScope_elements in Hin.
  apply isInterfaceOrType_tag.
  apply in_app_or in Hin. destruct Hin as [Hin | Hin].
  - destruct (precomputedScopes (getDocument helpers (container context)));
      [| contradiction].
    apply filter_In in Hin. tauto.
  - apply getGlobalScope_elements in Hin. destruct Hin as (_ & _ & H).
    apply H. reflexivity.
Qed.

(** X1, witness: [X], found for the reference [extends R]. *)
Lemma getScope_type_reference_only_types_witness :
  type Example.descX = Interface \/ type Example.descX = Type_.
Proof.
  apply (getScope_type_reference_only_types Example.services Example.helpers
           Example.typeReference Example.descX).
  - reflexivity.
  - vm_compute. tauto.
Defined.

(** X2.  Inside a grammar none of whose imports resolves to a URI -- one
    without imports, for instance -- the global layer is empty for every
    reference type, and everything [getScope] offers comes from the
    precomputed scopes of the document. *)
Theorem getScope_without_resolved_import :
  forall (services : LangiumServices) (helpers : Helpers) (context : ReferenceInfo)
         (grammar : AstNode),
    getContainerOfType (container context) isGrammar = Some grammar ->
    (forall imp, In imp (imports grammar) -> resolveImportUri helpers imp = None) ->
    (forall referenceType,
        getAllElements
          (LangiumGrammarScopeProvider.getGlobalScope services helpers
             referenceType context) = [])
    /\ (forall d,
          In d (getAllElements
                  (LangiumGrammarScopeProvider.getScope services helpers context)) ->
          exists precomputed k,
            precomputedScopes (getDocument helpers (container context))
            = Some precomputed
            /\ In d (MultiMap.get precomputed k)).
Proof.
  intros services helpers context grammar Hg Himports.
  assert (Hglobal : forall referenceType,
    getAllElements
      (LangiumGrammarScopeProvider.getGlobalScope services helpers
         referenceType context) = []).
  { intros referenceType.
    destruct (getAllElements _) as [| d rest] eqn:E; [reflexivity |].
    assert (Hin : In d (getAllElements
                          (LangiumGrammarScopeProvider.getGlobalScope services
                             helpers referenceType context)))
      by (rewrite E; left; reflexivity).
    apply getGlobalScope_elements in Hin.
    destruct Hin as (_ & (g & imp & Hg' & Himp & Hres) & _).
    rewrite Hg in Hg'. injection Hg' as <-.
    rewrite (Himports imp Himp) in Hres. discriminate. }
  split; [exact Hglobal |].
  intros d Hin.
  unfold LangiumGrammarScopeProvider.getScope in Hin.
  destruct (String.eqb (getReferenceType services context) AbstractType).
  - rewrite getTypeScope_elements, Hglobal, app_nil_r in Hin.
    destruct (precomputedScopes (getDocument helpers (container context)))
      as [precomputed |]; [| contradiction].
    apply filter_In in Hin. exists precomputed. eexists. split; [reflexivity | apply Hin].
  - unfold DefaultScopeProvider.getScope in Hin.
    rewrite getAllElements_layers, Hglobal, app_nil_r in Hin.
    destruct (precomputedScopes (getDocument helpers (container context)))
      as [precomputed |]; [| contradiction].
    apply localScopes_entries in Hin. destruct Hin as (k & Hin & _).
    exists precomputed, k. split; [reflexivity | exact Hin].
Qed.

(** X2, witness: a rule of the grammar [b.langium], which has no imports. *)
Lemma getScope_without_resolved_import_witness :
  getAllElements
    (LangiumGrammarScopeProvider.getGlobalScope Example.services Example.helpers
       "AbstractRule" LspExample.referenceInB) = [].
Proof.
  destruct (getScope_without_resolved_import Example.services Example.helpers
              LspExample.referenceInB LspExample.grammarB eq_refl) as (H & _).
  - intros imp [].
  - apply H.
Defined.

(** X3.  For references to an [AbstractType] the scope does not depend on
    the place of the reference inside its document: two such references
    with the same root node, document and enclosing grammar get the same
    scope. *)
Theorem getScope_type_reference_same_in_document :
  forall (services : LangiumServices) (helpers : Helpers)
         (context1 context2 : ReferenceInfo),
    getReferenceType services context1 = AbstractType ->
    getReferenceType services context2 = AbstractType ->
    findRootNode (container context1) = findRootNode (container context2) ->
    getDocument helpers (container context1)
    = getDocument helpers (container context2) ->
    getContainerOfType (container context1) isGrammar
    = getContainerOfType (container context2) isGrammar ->
    LangiumGrammarScopeProvider.getScope services helpers context1
    = LangiumGrammarScopeProvider.getScope services helpers context2.
Proof.
  intros services helpers context1 context2 Hty1 Hty2 Hroot Hdoc Hgrammar.
  rewrite (getScope_AbstractType _ _ _ Hty1), (getScope_AbstractType _ _ _ Hty2).
  unfold LangiumGrammarScopeProvider.getTypeScope,
    LangiumGrammarScopeProvider.getGlobalScope.
  rewrite Hroot, Hdoc, Hgrammar. reflexivity.
Qed.

(** X3, witness: a type reference in [interface X] and one in the action of
    rule [S]. *)
Lemma getScope_type_reference_same_in_document_witness :
  LangiumGrammarScopeProvider.getScope Example.services Example.helpers
    Example.typeReference
  = LangiumGrammarScopeProvider.getScope Example.services Example.helpers
      LspExample.typeReferenceInS.
Proof.
  apply (getScope_type_reference_same_in_document Example.services
           Example.helpers Example.typeReference LspExample.typeReferenceInS);
    reflexivity.
Defined.



(** ** Scope computation *)

Lemma exportAction_actionDescription (services : LangiumServices)
  (helpers : Helpers) (document : LangiumDocument)
  (exports : list AstNodeDescription) (childNode : AstNode) :
  LangiumGrammarScopeComputation.exportAction services helpers document exports
    childNode
  = exports ++ actionDescription services helpers document childNode.
Proof.
  unfold LangiumGrammarScopeComputation.exportAction, actionDescription.
  destruct (isAction childNode && isSome (inferredType childNode));
    [| symmetry; apply app_nil_r].
  destruct (getActionType helpers childNode) as [typeName |];
    [| symmetry; apply app_nil_r].
  destruct (truthy typeName); [reflexivity | symmetry; apply app_nil_r].
Qed.

Lemma exportAction_flat_map (services : LangiumServices) (helpers : Helpers)
  (document : LangiumDocument) (children : list AstNode) :
  forall exports,
    fold_left (LangiumGrammarScopeComputation.exportAction services helpers document)
              children exports
    = exports ++ flat_map (actionDescription services helpers document) children.
Proof.
  induction children as [| c rest IH]; intros exports; simpl.
  - symmetry. apply app_nil_r.
  - rewrite exportAction_actionDescription, IH. symmetry. apply app_assoc.
Qed.

Lemma actionDescription_In (services : LangiumServices) (helpers : Helpers)
  (document : LangiumDocument) (childNode : AstNode) (d : AstNodeDescription) :
  In d (actionDescription services helpers document childNode)
  <-> isAction childNode = true
      /\ inferredType childNode <> None
      /\ exists typeName,
          getActionType helpers childNode = Some typeName
          /\ typeName <> ""
          /\ d = LangiumGrammarScopeComputation.createInterfaceDescription
                   services helpers childNode typeName document.
Proof.
  unfold actionDescription. split.
  - destruct (isAction childNode); [| contradiction].
    destruct (inferredType childNode); [| contradiction]. simpl.
    destruct (getActionType helpers childNode) as [typeName |]; [| contradiction].
    destruct (truthy typeName) eqn:E; [| contradiction].
    intros [<- | []]. repeat split; [discriminate |].
    exists typeName. repeat split.
    unfold truthy in E. apply negb_true_iff, String.eqb_neq in E. exact E.
  - intros (-> & Hinf & typeName & -> & Hname & ->).
    destruct (inferredType childNode); [| contradiction]. simpl.
    unfold truthy. apply String.eqb_neq in Hname. rewrite Hname. simpl.
    left. reflexivity.
Qed.

(** X5.  [exportNode] keeps what the base class exports for the node and
    appends to it: for a parser rule, the description of the rule's type
    when the rule has neither [returnType] nor [dataType], and then one
    description for each [infer] action with a non-empty type name among the
    contents of the rule, in the order of the traversal; for any other node,
    nothing. *)
Theorem exportNode_appends :
  forall (services : LangiumServices) (helpers : Helpers)
         (base : DefaultScopeComputation) (node : AstNode)
         (exports : list AstNodeDescription) (document : LangiumDocument),
    LangiumGrammarScopeComputation.exportNode services helpers base node exports
      document
    = super_exportNode base node exports document
      ++ (if isParserRule node then
            (match returnType node, dataType node with
             | None, None =>
                 [LangiumGrammarScopeComputation.createInterfaceDescription
                    services helpers
                    (LangiumGrammarScopeComputation.typeNodeOf node)
                    (name (LangiumGrammarScopeComputation.typeNodeOf node))
                    document]
             | _, _ => []
             end)
            ++ flat_map (actionDescription services helpers document)
                        (streamAllContents helpers node)
          else []).
Proof.
  intros services helpers base node exports document.
  unfold LangiumGrammarScopeComputation.exportNode.
  destruct (isParserRule node); [| symmetry; apply app_nil_r].
  rewrite exportAction_flat_map.
  destruct (returnType node), (dataType node); simpl;
    rewrite <- ?app_assoc; reflexivity.
Qed.

(** X6.  Whatever [exportNode] exports beyond the base class is tagged
    ['Interface'], carries the URI of the document, and is anchored, with
    its path, either at the type node of the rule or at an action among the
    rule's contents. *)
Theorem exportNode_added_descriptions :
  forall (services : LangiumServices) (helpers : Helpers)
         (base : DefaultScopeComputation) (node : AstNode)
         (exports : list AstNodeDescription) (document : LangiumDocument)
         (d : AstNodeDescription),
    In d (LangiumGrammarScopeComputation.exportNode services helpers base node
            exports document) ->
    In d (super_exportNode base node exports document)
    \/ (isParserRule node = true
        /\ type d = "Interface"
        /\ documentUri d = uri document
        /\ exists anchor,
            desc_node d = Some anchor
            /\ path d = getAstNodePath services anchor
            /\ (anchor = LangiumGrammarScopeComputation.typeNodeOf node
                /\ returnType node = None /\ dataType node = None
                \/ In anchor (streamAllContents helpers node)
                   /\ isAction anchor = true)).
Proof.
  intros services helpers base node exports document d.
  unfold LangiumGrammarScopeComputation.exportNode.
  destruct (isParserRule node); [| auto].
  rewrite exportAction_flat_map, in_app_iff, in_flat_map.
  intros [Hin | (c & Hc & Hin)].
  - destruct (returnType node) eqn:Hret, (dataType node) eqn:Hdata; simpl in Hin;
      auto.
    apply in_app_or in Hin. destruct Hin as [Hin | [<- | []]]; [auto |].
    right. repeat split. eexists. split; [reflexivity |]. split; [reflexivity |].
    left. auto.
  - apply actionDescription_In in Hin.
    destruct Hin as (Hact & _ & typeName & _ & _ & ->).
    right. repeat split. exists c. split; [reflexivity |]. split; [reflexivity |].
    right. auto.
Qed.

(** X6, witness: the description exported for the action [{infer U}]. *)
Lemma exportNode_added_descriptions_witness :
  let d := LangiumGrammarScopeComputation.createInterfaceDescription
             Example.services Example.helpers Example.actionU "U" Example.docA in
  type d = "Interface" /\ documentUri d = Example.uriA.
Proof.
  intros d.
  destruct (exportNode_added_descriptions Example.services Example.helpers
              Example.base Example.ruleS [] Example.docA d) as [H | H].
  - vm_compute. tauto.
  - vm_compute in H. destruct H as [H | []]. discriminate H.
  - destruct H as (_ & Hty & Huri & _). split; [exact Hty | exact Huri].
Defined.

(** X7.  The synthetic descriptions are exported and made locally visible as
    one and the same description: that of a rule by [exportNode] and, under
    the rule's container, by [processTypeNode]; that of an action among the
    rule's contents by [exportNode] of the rule and, under the root node, by
    [processActionNode]. *)
Theorem exported_descriptions_are_local :
  forall (services : LangiumServices) (helpers : Helpers)
         (base : DefaultScopeComputation) (rule : AstNode)
         (exports : list AstNodeDescription) (scopes : PrecomputedScopes)
         (document : LangiumDocument),
    isParserRule rule = true ->
    (forall ruleContainer,
        returnType rule = None -> dataType rule = None ->
        node_container rule = Some ruleContainer ->
        let d := LangiumGrammarScopeComputation.createInterfaceDescription
                   services helpers
                   (LangiumGrammarScopeComputation.typeNodeOf rule)
                   (name (LangiumGrammarScopeComputation.typeNodeOf rule))
                   document in
        In d (LangiumGrammarScopeComputation.exportNode services helpers base
                rule exports document)
        /\ In d (MultiMap.get
                   (LangiumGrammarScopeComputation.processTypeNode services
                      helpers rule document scopes)
                   ruleContainer))
    /\ (forall action d,
          In action (streamAllContents helpers rule) ->
          In d (actionDescription services helpers document action) ->
          In d (LangiumGrammarScopeComputation.exportNode services helpers base
                  rule exports document)
          /\ In d (MultiMap.get
                     (LangiumGrammarScopeComputation.processActionNode services
                        helpers action document scopes)
                     (findRootNode action))).
Proof.
  intros services helpers base rule exports scopes document Hrule. split.
  - intros ruleContainer Hret Hdata Hcont d. split.
    + unfold LangiumGrammarScopeComputation.exportNode.
      rewrite Hrule, Hret, Hdata, exportAction_flat_map. simpl.
      apply in_or_app. left. apply in_or_app. right. left. reflexivity.
    + unfold LangiumGrammarScopeComputation.processTypeNode.
      rewrite Hcont, Hrule, Hret, Hdata. simpl.
      rewrite MultiMap_get_add, sameNode_refl.
      apply in_or_app. right. left. reflexivity.
  - intros action d Hin Hd. split.
    + unfold LangiumGrammarScopeComputation.exportNode.
      rewrite Hrule, exportAction_flat_map.
      apply in_or_app. right. apply in_flat_map. eauto.
    + apply actionDescription_In in Hd.
      destruct Hd as (Hact & Hinf & typeName & Htype & Hname & ->).
      unfold LangiumGrammarScopeComputation.processActionNode.
      rewrite Hact, Htype.
      destruct (inferredType action); [| contradiction]. simpl.
      unfold truthy. apply String.eqb_neq in Hname. rewrite Hname. simpl.
      rewrite MultiMap_get_add, sameNode_refl.
      apply in_or_app. right. left. reflexivity.
Qed.

(** X7, witness: rule [S infers T] and its action [{infer U}]. *)
Lemma exported_descriptions_are_local_witness :
  In (LangiumGrammarScopeComputation.createInterfaceDescription Example.services
        Example.helpers Example.actionU "U" Example.docA)
     (MultiMap.get
        (LangiumGrammarScopeComputation.processActionNode Example.services
           Example.helpers Example.actionU Example.docA [])
        Example.grammarA)
  /\ In (LangiumGrammarScopeComputation.createInterfaceDescription
           Example.services Example.helpers
           (LangiumGrammarScopeComputation.typeNodeOf Example.ruleS) "T"
           Example.docA)
        (LangiumGrammarScopeComputation.exportNode Example.services
           Example.helpers Example.base Example.ruleS [] Example.docA).
Proof.
  destruct (exported_descriptions_are_local Example.services Example.helpers
              Example.base Example.ruleS [] [] Example.docA eq_refl)
    as (Hrule & Haction).
  split.
  - apply (Haction Example.actionU).
    + left. reflexivity.
    + left. reflexivity.
  - apply (Hrule Example.grammarA); reflexivity.
Defined.

Lemma processActionNode_not_action (services : LangiumServices)
  (helpers : Helpers) (node : AstNode) (document : LangiumDocument)
  (scopes : PrecomputedScopes) :
  isAction node = false ->
  LangiumGrammarScopeComputation.processActionNode services helpers node
    document scopes = scopes.
Proof.
  intros H. unfold LangiumGrammarScopeComputation.processActionNode.
  rewrite H. reflexivity.
Qed.

Lemma processTypeNode_not_rule (services : LangiumServices)
  (helpers : Helpers) (node : AstNode) (document : LangiumDocument)
  (scopes : PrecomputedScopes) :
  isParserRule node = false ->
  LangiumGrammarScopeComputation.processTypeNode services helpers node
    document scopes = scopes.
Proof.
  intros H. unfold LangiumGrammarScopeComputation.processTypeNode.
  rewrite H. destruct (node_container node); reflexivity.
Qed.

(** X8.  [processNode] returns the scopes as they are for a [ReturnType]
    node, whatever the base class would do with it.  For any other node it
    hands to the base class either the scopes as they are or the scopes with
    one more entry, a description tagged ['Interface'], added under the
    root node (for an action) or under the container of the node (for a
    rule); the entries already there are kept. *)
Theorem processNode_adds_at_most_one :
  forall (services : LangiumServices) (helpers : Helpers)
         (base : DefaultScopeComputation) (node : AstNode)
         (document : LangiumDocument) (scopes : PrecomputedScopes),
    (isReturnType node = true ->
     LangiumGrammarScopeComputation.processNode services helpers base node
       document scopes = scopes)
    /\ (isReturnType node = false ->
        exists handed,
          LangiumGrammarScopeComputation.processNode services helpers base node
            document scopes
          = super_processNode base node document handed
          /\ (handed = scopes
              \/ exists key d,
                  handed = MultiMap.add key d scopes
                  /\ type d = "Interface"
                  /\ (isAction node = true /\ key = findRootNode node
                      \/ isParserRule node = true
                         /\ node_container node = Some key))).
Proof.
  intros services helpers base node document scopes.
  unfold LangiumGrammarScopeComputation.processNode. split.
  - intros ->. reflexivity.
  - intros ->. eexists. split; [reflexivity |].
    destruct (isParserRule node) eqn:Hrule.
    + assert (Hact : isAction node = false).
      { unfold isParserRule in Hrule. unfold isAction.
        destruct (data node); try discriminate; reflexivity. }
      rewrite (processActionNode_not_action _ _ _ _ _ Hact).
      unfold LangiumGrammarScopeComputation.processTypeNode. rewrite Hrule.
      simpl andb.
      destruct (node_container node) as [c |]; [| left; reflexivity].
      destruct (negb (isSome (returnType node)) && negb (isSome (dataType node)));
        [| left; reflexivity].
      right. eexists. eexists. split; [reflexivity |]. split; [reflexivity |].
      right. split; reflexivity.
    + rewrite (processTypeNode_not_rule _ _ _ _ _ Hrule).
      unfold LangiumGrammarScopeComputation.processActionNode.
      destruct (isAction node && isSome (inferredType node)) eqn:E;
        [| left; reflexivity].
      destruct (getActionType helpers node) as [typeName |]; [| left; reflexivity].
      destruct (truthy typeName); [| left; reflexivity].
      right. eexists. eexists. split; [reflexivity |]. split; [reflexivity |].
      left. apply andb_true_iff in E. split; [apply E | reflexivity].
Qed.

(** X8, witness: a [ReturnType] node and the action [{infer U}]. *)
Lemma processNode_adds_at_most_one_witness :
  LangiumGrammarScopeComputation.processNode Example.services Example.helpers
    Example.base (mkAstNode 60 (ReturnType "string") (Some Example.ruleR))
    Example.docA Example.scopesA = Example.scopesA
  /\ length (LangiumGrammarScopeComputation.processNode Example.services
               Example.helpers Example.base Example.actionU Example.docA
               Example.scopesA)
     = S (length Example.scopesA).
Proof.
  split.
  - apply (processNode_adds_at_most_one Example.services Example.helpers
             Example.base (mkAstNode 60 (ReturnType "string") (Some Example.ruleR))
             Example.docA Example.scopesA).
    reflexivity.
  - destruct (processNode_adds_at_most_one Example.services Example.helpers
                Example.base Example.actionU Example.docA Example.scopesA)
      as (_ & H).
    destruct (H eq_refl) as (handed & Heq & [-> | (key & d & -> & _)]).
    + apply (f_equal (@length _)) in Heq. vm_compute in Heq. discriminate Heq.
    + rewrite Heq. change (super_processNode Example.base Example.actionU
                             Example.docA (MultiMap.add key d Example.scopesA))
        with (Example.scopesA ++ [(key, d)]).
      rewrite length_app. simpl. reflexivity.
Defined.

(** X9.  The name segment of a synthetic description is that of the name
    node of its anchor and, when the name provider finds none, that of the
    anchor's own CST node, in which case it equals the selection segment;
    it is missing only when the anchor has neither. *)
Theorem createInterfaceDescription_segments :
  forall (services : LangiumServices) (helpers : Helpers) (node : AstNode)
         (nm : string) (document : LangiumDocument),
    let d := LangiumGrammarScopeComputation.createInterfaceDescription services
               helpers node nm document in
    (forall nameNode, getNameNode services node = Some nameNode ->
                      nameSegment d = toDocumentSegment (Some nameNode))
    /\ (getNameNode services node = None -> nameSegment d = selectionSegment d)
    /\ (nameSegment d = None
        <-> getNameNode services node = None /\ cstNode helpers node = None).
Proof.
  intros services helpers node nm document d. subst d.
  unfold LangiumGrammarScopeComputation.createInterfaceDescription. simpl.
  split; [| split].
  - intros nameNode ->. reflexivity.
  - intros ->. reflexivity.
  - destruct (getNameNode services node) as [n |]; simpl.
    + split; [discriminate | intros [H _]; discriminate H].
    + destruct (cstNode helpers node); simpl; split;
        try discriminate; try tauto. intros [_ H]. discriminate H.
Qed.

(** X9, witness: rule [R] has a name node, the action [{infer U}] has
    neither name node nor CST node in the example. *)
Lemma createInterfaceDescription_segments_witness :
  nameSegment (LangiumGrammarScopeComputation.createInterfaceDescription
                 Example.services Example.helpers Example.ruleR "R" Example.docA)
  = toDocumentSegment (Some Example.tokR)
  /\ nameSegment (LangiumGrammarScopeComputation.createInterfaceDescription
                    Example.services Example.helpers Example.actionU "U"
                    Example.docA) = None.
Proof.
  split.
  - apply (createInterfaceDescription_segments Example.services Example.helpers
             Example.ruleR "R" Example.docA). reflexivity.
  - apply (createInterfaceDescription_segments Example.services Example.helpers
             Example.actionU "U" Example.docA). split; reflexivity.
Defined.

(** ** Declarations and references *)

Lemma findReferences_unfold (services : LangiumServices) (helpers : Helpers)
  (targetNode : AstNode) (options : FindReferencesOptions) :
  DefaultReferences.findReferences services helpers targetNode options
  = (if includeDeclaration options then
       match DefaultReferences.getReferenceToSelf services helpers targetNode with
       | Some self => [self]
       | None => []
       end
     else [])
    ++ match opt_documentUri options with
       | Some documentUri =>
           filter (fun r => equalURI (sourceUri r) documentUri)
                  (findAllReferences services helpers targetNode
                     (getAstNodePath services targetNode))
       | None =>
           findAllReferences services helpers targetNode
             (getAstNodePath services targetNode)
       end.
Proof.
  unfold DefaultReferences.findReferences.
  destruct (includeDeclaration options); [| reflexivity].
  destruct (DefaultReferences.getReferenceToSelf services helpers targetNode);
    reflexivity.
Qed.

(** X10.  Every reference that [findReferences] returns, the self-reference
    included, has the document URI and the path of the target node as its
    target. *)
Theorem findReferences_point_at_target :
  forall (services : LangiumServices) (helpers : Helpers) (targetNode : AstNode)
         (options : FindReferencesOptions) (r : ReferenceDescription),
    In r (DefaultReferences.findReferences services helpers targetNode options) ->
    targetUri r = uri (getDocument helpers targetNode)
    /\ targetPath r = getAstNodePath services targetNode.
Proof.
  intros services helpers targetNode options r.
  rewrite findReferences_unfold, in_app_iff. intros [Hself | Hindex].
  - destruct (includeDeclaration options); [| contradiction].
    unfold DefaultReferences.getReferenceToSelf in Hself.
    destruct (getNameNode services targetNode); [| contradiction].
    destruct Hself as [<- | []]. split; reflexivity.
  - assert (Hin : In r (findAllReferences services helpers targetNode
                          (getAstNodePath services targetNode))).
    { destruct (opt_documentUri options); [| exact Hindex].
      apply filter_In in Hindex. apply Hindex. }
    apply findAllReferences_In in Hin. tauto.
Qed.

(** X10, witness: the reference to rule [R] from [other.langium]. *)
Lemma findReferences_point_at_target_witness :
  targetUri (Example.refToR Example.uriOther "/rules@0/definition") = Example.uriA
  /\ targetPath (Example.refToR Example.uriOther "/rules@0/definition") = "/rules@0".
Proof.
  apply (findReferences_point_at_target Example.services Example.helpers
           Example.ruleR
           {| onlyLocal := false; opt_documentUri := None;
              includeDeclaration := true |}).
  vm_compute. tauto.
Defined.

(** X11.  Without [includeDeclaration], setting [documentUri] keeps exactly
    those references of the unrestricted result whose source is that
    document, in the same order. *)
Theorem findReferences_documentUri_restricts :
  forall (services : LangiumServices) (helpers : Helpers) (targetNode : AstNode)
         (documentUri : URI) (local1 local2 : bool),
    let restricted :=
      DefaultReferences.findReferences services helpers targetNode
        {| onlyLocal := local1; opt_documentUri := Some documentUri;
           includeDeclaration := false |} in
    let unrestricted :=
      DefaultReferences.findReferences services helpers targetNode
        {| onlyLocal := local2; opt_documentUri := None;
           includeDeclaration := false |} in
    restricted = filter (fun r => equalURI (sourceUri r) documentUri) unrestricted
    /\ (forall r, In r restricted <-> In r unrestricted /\ sourceUri r = documentUri).
Proof.
  intros services helpers targetNode documentUri local1 local2
         restricted unrestricted.
  assert (H : restricted
              = filter (fun r => equalURI (sourceUri r) documentUri) unrestricted)
    by reflexivity.
  split; [exact H |].
  intros r. rewrite H, filter_In, equalURI_eq. tauto.
Qed.

(** X12.  The deprecated option [onlyLocal] has no effect, and
    [includeDeclaration] only decides whether the self-reference of a target
    with a name node is put in front of the result. *)
Theorem findReferences_includeDeclaration_prepends :
  forall (services : LangiumServices) (helpers : Helpers) (targetNode : AstNode)
         (documentUri : option URI) (local1 local2 : bool),
    DefaultReferences.findReferences services helpers targetNode
      {| onlyLocal := local1; opt_documentUri := documentUri;
         includeDeclaration := true |}
    = match DefaultReferences.getReferenceToSelf services helpers targetNode with
      | Some self => [self]
      | None => []
      end
      ++ DefaultReferences.findReferences services helpers targetNode
           {| onlyLocal := local2; opt_documentUri := documentUri;
              includeDeclaration := false |}.
Proof.
  intros services helpers targetNode documentUri local1 local2.
  rewrite !findReferences_unfold. reflexivity.
Qed.

Lemma findInArray_sound (sourceCstNode : CstNode) (items : list PropertyValue)
  (result : option AstNode) :
  DefaultReferences.findInArray sourceCstNode items = Return result ->
  exists rf, In (VReference rf) items
             /\ DefaultReferences.refCovers sourceCstNode (VReference rf) = Some rf
             /\ ref rf = result.
Proof.
  induction items as [| x items IH]; simpl; [discriminate |].
  destruct (DefaultReferences.refCovers sourceCstNode x) as [rf |] eqn:E.
  - intros [= <-]. exists rf.
    pose proof E as E'. apply refCovers_spec in E'. destruct E' as (-> & _).
    repeat split; [left; reflexivity | exact E].
  - intros H. destruct (IH H) as (rf & Hin & Hrest). exists rf. split; [right |]; assumption.
Qed.

(** X13.  Whatever node [findDeclaration] returns is either the resolved
    target of a reference that the element of the queried node holds under
    the feature of the governing assignment -- the value itself, or an array
    element whose recorded node spans the queried node -- or the element of
    the queried node, the queried node being, or lying in, its name node. *)
Theorem findDeclaration_sound :
  forall (services : LangiumServices) (helpers : Helpers) (sourceCstNode : CstNode)
         (declaration : AstNode),
    DefaultReferences.findDeclaration services helpers (Some sourceCstNode)
    = Some declaration ->
    exists nodeElem,
      element sourceCstNode = Some nodeElem
      /\ ((exists assignment rf,
              findAssignment helpers sourceCstNode = Some assignment
              /\ ref rf = Some declaration
              /\ (getProperty helpers nodeElem (feature assignment) = VReference rf
                  \/ exists items rn,
                      getProperty helpers nodeElem (feature assignment)
                      = VArray items
                      /\ In (VReference rf) items
                      /\ refNode rf = Some rn
                      /\ (offset rn <= offset sourceCstNode)%Z
                      /\ (cst_end rn >= cst_end sourceCstNode)%Z))
          \/ (declaration = nodeElem
              /\ exists nameNode,
                  getNameNode services nodeElem = Some nameNode
                  /\ (sameCstNode nameNode sourceCstNode = true
                      \/ isCstChildNode helpers sourceCstNode nameNode = true))).
Proof.
  intros services helpers sourceCstNode declaration.
  unfold DefaultReferences.findDeclaration,
    DefaultReferences.declarationOfReference, DefaultReferences.declarationOfName.
  destruct (element sourceCstNode) as [nodeElem |];
    [| destruct (findAssignment helpers sourceCstNode); discriminate].
  intros H. exists nodeElem. split; [reflexivity |].
  assert (Hname :
    match
      match getNameNode services nodeElem with
      | Some nameNode =>
          if sameCstNode nameNode sourceCstNode
             || isCstChildNode helpers sourceCstNode nameNode
          then Return (Some nodeElem) else Continue
      | None => Continue
      end
    with
    | Return result => result
    | Continue => None
    end = Some declaration ->
    declaration = nodeElem
    /\ exists nameNode,
        getNameNode services nodeElem = Some nameNode
        /\ (sameCstNode nameNode sourceCstNode = true
            \/ isCstChildNode helpers sourceCstNode nameNode = true)).
  { destruct (getNameNode services nodeElem) as [nameNode |]; [| discriminate].
    destruct (sameCstNode nameNode sourceCstNode
              || isCstChildNode helpers sourceCstNode nameNode) eqn:E;
      [| discriminate].
    intros [= <-]. split; [reflexivity |]. exists nameNode.
    split; [reflexivity |]. apply orb_true_iff. exact E. }
  destruct (findAssignment helpers sourceCstNode) as [assignment |];
    [| right; apply Hname; exact H].
  destruct (getProperty helpers nodeElem (feature assignment))
    as [rf | items |] eqn:Hprop.
  - left. exists assignment, rf.
    split; [reflexivity |]. split; [exact H |]. left. exact Hprop.
  - destruct (DefaultReferences.findInArray sourceCstNode items) as [result |] eqn:Harr.
    + apply findInArray_sound in Harr. destruct Harr as (rf & Hin & Hcov & Href).
      apply refCovers_spec in Hcov. destruct Hcov as (_ & rn & Hrn & Hoff & Hend).
      left. exists assignment, rf.
      split; [reflexivity |]. split; [congruence |].
      right. exists items, rn.
      split; [exact Hprop |]. split; [exact Hin |]. split; [exact Hrn |].
      split; assumption.
    + right. apply Hname. exact H.
  - right. apply Hname. exact H.
Qed.

(** X13, witness: the super type [R] of [interface X]. *)
Lemma findDeclaration_sound_witness :
  exists nodeElem, element Example.tokSuper = Some nodeElem.
Proof.
  destruct (findDeclaration_sound Example.services Example.helpers
              Example.tokSuper Example.ruleR eq_refl) as (nodeElem & H & _).
  exists nodeElem. exact H.
Defined.

(** X14.  For a node that is, or lies in, the name node of its element and
    is not resolved through a reference, [findDeclarationNode] returns that
    name node when the element has a CST node, and nothing when it has
    none, name node or not. *)
Theorem findDeclarationNode_of_name_token :
  forall (services : LangiumServices) (helpers : Helpers) (sourceCstNode : CstNode)
         (nodeElem : AstNode) (nameNode : CstNode),
    element sourceCstNode = Some nodeElem ->
    DefaultReferences.declarationOfReference helpers sourceCstNode = Continue ->
    getNameNode services nodeElem = Some nameNode ->
    sameCstNode nameNode sourceCstNode = true
    \/ isCstChildNode helpers sourceCstNode nameNode = true ->
    (forall c, cstNode helpers nodeElem = Some c ->
               DefaultReferences.findDeclarationNode services helpers
                 (Some sourceCstNode) = Some nameNode)
    /\ (cstNode helpers nodeElem = None ->
        DefaultReferences.findDeclarationNode services helpers
          (Some sourceCstNode) = None).
Proof.
  intros services helpers sourceCstNode nodeElem nameNode Helem Hcont Hname Htoken.
  assert (Hdecl : DefaultReferences.findDeclaration services helpers
                    (Some sourceCstNode) = Some nodeElem).
  { unfold DefaultReferences.findDeclaration. rewrite Hcont.
    unfold DefaultReferences.declarationOfName. rewrite Helem, Hname.
    apply orb_true_iff in Htoken. rewrite Htoken. reflexivity. }
  unfold DefaultReferences.findDeclarationNode. rewrite Hdecl.
  split.
  - intros c ->. rewrite Hname. reflexivity.
  - intros ->. reflexivity.
Qed.

(** X14, witness: the name token of rule [R] leads to itself; rule [R] has
    a CST node. *)
Lemma findDeclarationNode_of_name_token_witness :
  DefaultReferences.findDeclarationNode Example.services Example.helpers
    (Some Example.tokR) = Some Example.tokR.
Proof.
  destruct (findDeclarationNode_of_name_token Example.services Example.helpers
              Example.tokR Example.ruleR Example.tokR eq_refl eq_refl eq_refl)
    as (H & _).
  - left. reflexivity.
  - apply (H {| cst_uid := 20; offset := 0; cst_end := 19;
                element := Some Example.ruleR |}). reflexivity.
Defined.

(** ** LSP providers *)









(** X17.  Once a node is found at the position, [getImplementation] hands to
    the collector of the subclass the declaration that [findDeclaration]
    gives for it: the element itself at a name token that is not resolved
    through a reference, the target of a single reference under an
    assignment; for an unresolved reference it returns nothing and the
    collector has no part in the result. *)
Theorem getImplementation_declaration :
  forall (services : LangiumServices) (helpers : Helpers) (lsp : LspHelpers)
         (LocationLink : Type) (collect : AstNode -> option (list LocationLink))
         (document : ParsedDocument) (params : ImplementationParams)
         (rootCst sourceCstNode : CstNode) (nodeElem : AstNode),
    cstNode helpers (parseResult_value document) = Some rootCst ->
    findDeclarationNodeAtOffset lsp rootCst
      (offsetAt document (implementation_position params)) (nameRegexp lsp)
    = Some sourceCstNode ->
    element sourceCstNode = Some nodeElem ->
    (DefaultReferences.declarationOfReference helpers sourceCstNode = Continue ->
     forall nameNode,
       getNameNode services nodeElem = Some nameNode ->
       sameCstNode nameNode sourceCstNode = true
       \/ isCstChildNode helpers sourceCstNode nameNode = true ->
       AbstractGoToImplementationProvider.getImplementation services helpers lsp
         LocationLink collect document params
       = collect nodeElem)
    /\ (forall assignment reference,
          findAssignment helpers sourceCstNode = Some assignment ->
          getProperty helpers nodeElem (feature assignment) = VReference reference ->
          AbstractGoToImplementationProvider.getImplementation services helpers
            lsp LocationLink collect document params
          = match ref reference with
            | Some target => collect target
            | None => None
            end).
Proof.
  intros services helpers lsp LocationLink collect document params
         rootCst sourceCstNode nodeElem Hroot Hsource Helem.
  unfold AbstractGoToImplementationProvider.getImplementation.
  rewrite Hroot, Hsource.
  unfold DefaultReferences.findDeclaration. split.
  - intros Hcont nameNode Hname Htoken. rewrite Hcont.
    unfold DefaultReferences.declarationOfName. rewrite Helem, Hname.
    apply orb_true_iff in Htoken. rewrite Htoken. reflexivity.
  - intros assignment reference Hassign Hprop.
    unfold DefaultReferences.declarationOfReference.
    rewrite Hassign, Helem, Hprop. reflexivity.
Qed.

(** X17, witness: at the name of rule [R] the collector gets the rule; at
    the unresolved rule call nothing is returned. *)
Lemma getImplementation_declaration_witness :
  let collect := fun n : AstNode => Some [uid n] in
  AbstractGoToImplementationProvider.getImplementation LspExample.services
    LspExample.helpers LspExample.lsp nat collect LspExample.documentA
    {| implementation_position := {| line := 0; character := 0 |} |}
  = Some [4]
  /\ AbstractGoToImplementationProvider.getImplementation LspExample.services
       LspExample.helpers LspExample.lsp nat collect LspExample.documentA
       {| implementation_position := {| line := 0; character := 5 |} |}
     = None.
Proof.
  intros collect. split.
  - destruct (getImplementation_declaration LspExample.services
                LspExample.helpers LspExample.lsp nat collect
                LspExample.documentA
                {| implementation_position := {| line := 0; character := 0 |} |}
                LspExample.rootCst Example.tokR Example.ruleR
                eq_refl eq_refl eq_refl) as (H & _).
    rewrite (H eq_refl Example.tokR eq_refl (or_introl eq_refl)). reflexivity.
  - destruct (getImplementation_declaration LspExample.services
                LspExample.helpers LspExample.lsp nat collect
                LspExample.documentA
                {| implementation_position := {| line := 0; character := 5 |} |}
                LspExample.rootCst Example.tokCall Example.ruleCall
                eq_refl eq_refl eq_refl) as (_ & H).
    rewrite (H {| feature := "rule" |}
               {| ref := None; refNode := Some Example.tokCall |}
               eq_refl eq_refl).
    reflexivity.
Defined.
